(** * carServicesServer: the HTTP handlers of [index.js] over a model of
      their collaborators (Express request and response, the MongoDB
      collections [services] and [orders], the [jsonwebtoken] library).

    The handlers are embedded as programs of a small state-and-exception
    monad.  The state holds the two collections, the response under
    construction and a trace of the calls made to the database and to the
    token library.  What the source imports and does not define (token
    signing and verification, regular expressions, the [ObjectId]
    constructor) is an interface, [Runtime]; the theorems hold for every
    implementation of it.

    The middleware installed with [app.use] (cors, json body parser, cookie
    parser, rate limiter, helmet) runs before every route; it produces the
    [body], [cookies] and [query] fields read below and is not modelled
    further: the statements are about the stack of a route. *)

From Stdlib Require Import List String Ascii ZArith Bool Lia.
From Stdlib Require Import DecimalString.
Import ListNotations.
Open Scope string_scope.

Set Implicit Arguments.
Local Set Warnings "-register-all".

(** ** Values *)

(** JSON and BSON values.  An [ObjectId] is represented by the 24-digit
    hexadecimal string that [toHexString] gives.  Numbers are only ever
    tested for zero and compared by the handlers; integers stand for them.
    [undefined] is not a value: an expression that may be [undefined] has
    type [option value]. *)
Inductive value : Type :=
| VNull
| VBool (b : bool)
| VNum (n : Z)
| VStr (s : string)
| VOid (hex : string)
| VArr (items : list value)
| VObj (fields : list (string * value)).

Definition document := list (string * value).

(** [obj[k]]: the value bound to a key, [None] for [undefined]. *)
Fixpoint lookup (k : string) (d : document) : option value :=
  match d with
  | [] => None
  | (k', v) :: rest => if String.eqb k k' then Some v else lookup k rest
  end.

(** [obj[k] = v]: replaces in place, or appends a new key. *)
Fixpoint set_field (k : string) (v : value) (d : document) : document :=
  match d with
  | [] => [(k, v)]
  | (k', v') :: rest =>
      if String.eqb k k' then (k', v) :: rest
      else (k', v') :: set_field k v rest
  end.

(** Structural equality of values (BSON comparison for equality: arrays and
    embedded documents compare element by element, in order). *)
Fixpoint value_eqb (a b : value) {struct a} : bool :=
  match a, b with
  | VNull, VNull => true
  | VBool x, VBool y => Bool.eqb x y
  | VNum x, VNum y => Z.eqb x y
  | VStr x, VStr y => String.eqb x y
  | VOid x, VOid y => String.eqb x y
  | VArr xs, VArr ys =>
      (fix go (xs ys : list value) {struct xs} : bool :=
         match xs, ys with
         | [], [] => true
         | x :: xs', y :: ys' => value_eqb x y && go xs' ys'
         | _, _ => false
         end) xs ys
  | VObj xs, VObj ys =>
      (fix go (xs ys : list (string * value)) {struct xs} : bool :=
         match xs, ys with
         | [], [] => true
         | (k, x) :: xs', (k', y) :: ys' =>
             String.eqb k k' && value_eqb x y && go xs' ys'
         | _, _ => false
         end) xs ys
  | _, _ => false
  end.

(** ** JavaScript operators used by the handlers *)

(** [!!v]: [undefined], [null], [false], [0] and the empty string are falsy;
    objects and arrays are truthy. *)
Definition truthy (v : option value) : bool :=
  match v with
  | None => false
  | Some VNull => false
  | Some (VBool b) => b
  | Some (VNum n) => negb (Z.eqb n 0)
  | Some (VStr s) => negb (String.eqb s "")
  | Some (VOid _) => true
  | Some (VArr _) => true
  | Some (VObj _) => true
  end.

(** [a === b] for two values that are never the same object: the operands
    compared by the source come out of two different parsers (the token
    payload and the query string), so objects and arrays are never
    identical. *)
Definition strict_eq (a b : option value) : bool :=
  match a, b with
  | None, None => true
  | Some VNull, Some VNull => true
  | Some (VBool x), Some (VBool y) => Bool.eqb x y
  | Some (VNum x), Some (VNum y) => Z.eqb x y
  | Some (VStr x), Some (VStr y) => String.eqb x y
  | _, _ => false
  end.

(** [a || b] *)
Definition js_or (a : option value) (b : value) : value :=
  match a with
  | Some v => if truthy a then v else b
  | None => b
  end.

(** ** Exceptions *)

Inductive error : Type :=
| TypeError (msg : string)
| BSONError (msg : string)
| MongoServerError (msg : string)
| JsonWebTokenError (msg : string).

Inductive result (A : Type) : Type :=
| Ok (a : A)
| Throw (e : error).
Arguments Ok {A} a.
Arguments Throw {A} e.

(** Property access [v.k] on an arbitrary value: [undefined] on a primitive
    or an array (for a key that is not an index), a [TypeError] on [null]. *)
Definition get_prop (v : value) (k : string) : result (option value) :=
  match v with
  | VNull => Throw (TypeError "Cannot read properties of null")
  | VObj d => Ok (lookup k d)
  | _ => Ok None
  end.

(** ** The libraries the source imports *)

Record sign_options : Type := {
  expiresIn : string;
  algorithm : string
}.

(** [jwt_sign payload secret options now] is [jwt.sign]; [None] when it
    throws.  [jwt_verify token secret now] is [jwt.verify]: the decoded
    payload, or [None] for the [err] branch of its callback (bad signature,
    expired, malformed).  [regex_compile pattern options] is the database's
    regular-expression engine: [None] for a pattern it rejects, else the
    test it performs on a string.  [ObjectId_parse s] is [new ObjectId(s)]:
    the identifier in hexadecimal, [None] when the constructor throws.
    [createPk n] is the identifier the driver generates for the [n]-th
    document inserted without one. *)
Class Runtime : Type := {
  jwt_sign : value -> string -> sign_options -> Z -> option string;
  jwt_verify : string -> string -> Z -> option value;
  regex_compile : string -> string -> option (string -> bool);
  ObjectId_parse : string -> option string;
  createPk : nat -> string
}.

(** ** Requests and responses *)

Inductive method : Type := GET | POST | PUT | PATCH | DELETE.

Inductive route : Type :=
| PostJwt
| PostLogout
| GetServices
| GetServiceById (id : string)
| PostOrders
| GetOrders
| PatchOrder (id : string)
| DeleteOrder (id : string)
| GetRoot
| NoRoute.

(** [path] is the URL path split at its slashes; [params_id] is filled by
    the router for the routes with an [:id] segment. *)
Record request : Type := {
  req_method : method;
  path : list string;
  params_id : string;
  query : document;
  body : document;
  cookies : document;
  decoded : option value
}.

Record cookie_options : Type := {
  httpOnly : bool;
  secure : bool;
  sameSite : option string;
  maxAge : option Z;
  expires : option Z;
  cookie_path : option string
}.

Record cookie : Type := {
  cookie_name : string;
  cookie_value : string;
  cookie_opts : cookie_options
}.

(** The response under construction: [res_body] is [None] until [send]. *)
Record response : Type := {
  res_status : nat;
  res_cookies : list cookie;
  res_body : option value
}.

Definition fresh_response : response :=
  {| res_status := 200; res_cookies := []; res_body := None |}.

(** ** The database *)

(** Modelled from the spec: the schema of a catalogue entry, which the
    source does not declare (the collection is schemaless and filled outside
    this program): "Service: read-only catalog entry (title, price,
    description, identifier)".  The fields are those the source searches and
    projects; [_id] is an [ObjectId], as the source's comment on its search
    says ("Convert ObjectId to string and then search"). *)
Record service : Type := {
  svc_id : string;
  svc_service_id : string;
  svc_title : string;
  svc_price : string;
  svc_description : string;
  svc_extra : document
}.

(** The document that the collection holds for a catalogue entry. *)
Definition service_doc (s : service) : document :=
  ("_id", VOid (svc_id s))
  :: ("service_id", VStr (svc_service_id s))
  :: ("title", VStr (svc_title s))
  :: ("price", VStr (svc_price s))
  :: ("description", VStr (svc_description s))
  :: svc_extra s.

Inductive coll : Type := serviceCollection | orderCollection.

(** The filters the source builds.
    - [FieldEq f v] is [{ f: v }];
    - [FieldRegex f pat opts] is [{ f: { $regex: pat, $options: opts } }];
    - [ExprRegexMatchToString f pat opts] is
      [{ $expr: { $regexMatch: { input: { $toString: "$f" }, regex: pat,
      options: opts } } }]. *)
Inductive clause : Type :=
| FieldEq (f : string) (v : value)
| FieldRegex (f : string) (pat : value) (opts : string)
| ExprRegexMatchToString (f : string) (pat : value) (opts : string).

(** [QAll] is [find()] without a filter, [QOr cs] is [{ $or: cs }]. *)
Inductive filter_doc : Type :=
| QAll
| QWhere (c : clause)
| QOr (cs : list clause).

(** The update the source builds: [{ $set: { f: v, ... } }], where a value
    may be [undefined]. *)
Definition update_doc := list (string * option value).

Inductive event : Type :=
| DbFind (c : coll) (q : filter_doc)
| DbFindOne (c : coll) (q : filter_doc) (projection : list string)
| DbInsertOne (c : coll) (d : document)
| DbUpdateOne (c : coll) (q : filter_doc) (u : update_doc)
| DbDeleteOne (c : coll) (q : filter_doc)
| JwtSign (payload : value)
| JwtVerify (token : value).

(** An equality filter matches a field that holds the value, and a field that
    holds an array with the value among its elements; a filter on [null]
    also matches a missing field. *)
Definition eq_match (q v : value) : bool :=
  value_eqb q v
  || match v with
     | VArr items => existsb (value_eqb q) items
     | _ => false
     end.

Definition field_eq (f : string) (q : value) (d : document) : bool :=
  match lookup f d with
  | Some v => eq_match q v
  | None => value_eqb q VNull
  end.

(** A regular expression is tested on a string field, and on the strings of
    an array field; no other type matches. *)
Definition field_regex (f : string) (m : string -> bool) (d : document) : bool :=
  match lookup f d with
  | Some (VStr s) => m s
  | Some (VArr items) =>
      existsb (fun v => match v with VStr s => m s | _ => false end) items
  | _ => false
  end.

Definition decimal (n : Z) : string :=
  NilZero.string_of_int (Z.to_int n).

(** [$toString]: [null] for [null] and for a missing field; an array or an
    embedded document does not convert. *)
Definition to_string (v : option value) : result (option string) :=
  match v with
  | None => Ok None
  | Some VNull => Ok None
  | Some (VBool b) => Ok (Some (if b then "true" else "false"))
  | Some (VNum n) => Ok (Some (decimal n))
  | Some (VStr s) => Ok (Some s)
  | Some (VOid h) => Ok (Some h)
  | Some (VArr _) => Throw (MongoServerError "Unsupported conversion from array to string")
  | Some (VObj _) => Throw (MongoServerError "Unsupported conversion from object to string")
  end.

(** [$regexMatch] is [false] on a [null] input. *)
Definition expr_regex_match (f : string) (m : string -> bool) (d : document)
  : result bool :=
  match to_string (lookup f d) with
  | Ok (Some s) => Ok (m s)
  | Ok None => Ok false
  | Throw e => Throw e
  end.

(** ** The state of a run and the monad of handlers *)

(** [clock] is [Date.now()]; [inserted] counts the identifiers the driver
    has generated; [res] is the response of the request being served;
    [trace] lists, oldest first, the calls made to the database and to the
    token library. *)
Record state : Type := {
  services : list service;
  orders : list document;
  clock : Z;
  inserted : nat;
  res : response;
  trace : list event
}.

(** A handler runs from a state to a state and either returns or throws; the
    effects made before a throw stay. *)
Definition M (A : Type) : Type := state -> result A * state.

Definition ret {A} (a : A) : M A := fun st => (Ok a, st).

Definition bind {A B} (m : M A) (k : A -> M B) : M B :=
  fun st =>
    match m st with
    | (Ok a, st') => k a st'
    | (Throw e, st') => (Throw e, st')
    end.

Definition throw {A} (e : error) : M A := fun st => (Throw e, st).

(** [try { m } catch (error) { h error }] *)
Definition try_catch {A} (m : M A) (h : error -> M A) : M A :=
  fun st =>
    match m st with
    | (Ok a, st') => (Ok a, st')
    | (Throw e, st') => h e st'
    end.

Definition lift {A} (r : result A) : M A := fun st => (r, st).

Definition gets {A} (f : state -> A) : M A := fun st => (Ok (f st), st).

Definition modify (f : state -> state) : M unit := fun st => (Ok tt, f st).

Declare Scope handler_scope.
Delimit Scope handler_scope with handler.
Notation "x <- m ;; k" := (bind m (fun x => k))
  (at level 61, m at next level, right associativity) : handler_scope.
Notation "m ;; k" := (bind m (fun _ => k))
  (at level 61, right associativity) : handler_scope.
Notation "'try' m 'catch' h" := (try_catch m h)
  (at level 62, m at level 61, h at level 61) : handler_scope.

Definition with_res (f : response -> response) (st : state) : state :=
  {| services := services st; orders := orders st; clock := clock st;
     inserted := inserted st; res := f (res st); trace := trace st |}.

Definition with_orders (ds : list document) (st : state) : state :=
  {| services := services st; orders := ds; clock := clock st;
     inserted := inserted st; res := res st; trace := trace st |}.

Definition with_inserted (n : nat) (st : state) : state :=
  {| services := services st; orders := orders st; clock := clock st;
     inserted := n; res := res st; trace := trace st |}.

Definition log (ev : event) : M unit :=
  modify (fun st =>
    {| services := services st; orders := orders st; clock := clock st;
       inserted := inserted st; res := res st; trace := trace st ++ [ev] |}).

(** *** The response object *)

(** [res.status(n)] *)
Definition status (n : nat) : M unit :=
  modify (with_res (fun r =>
    {| res_status := n; res_cookies := res_cookies r; res_body := res_body r |})).

(** [res.send(v)] *)
Definition send (v : value) : M unit :=
  modify (with_res (fun r =>
    {| res_status := res_status r; res_cookies := res_cookies r;
       res_body := Some v |})).

(** [res.cookie(name, value, options)] *)
Definition set_cookie (name val : string) (opts : cookie_options) : M unit :=
  modify (with_res (fun r =>
    {| res_status := res_status r;
       res_cookies := res_cookies r
         ++ [{| cookie_name := name; cookie_value := val; cookie_opts := opts |}];
       res_body := res_body r |})).

(** [res.clearCookie(name, options)]: Express sends the cookie with an empty
    value, an expiry date in the past and the path [/], under the options
    given. *)
Definition clearCookie (name : string) (opts : cookie_options) : M unit :=
  set_cookie name ""
    {| httpOnly := httpOnly opts; secure := secure opts;
       sameSite := sameSite opts; maxAge := maxAge opts;
       expires := match expires opts with Some e => Some e | None => Some 1%Z end;
       cookie_path := match cookie_path opts with
                      | Some p => Some p
                      | None => Some "/"
                      end |}.

(** The driver writes [undefined] as [null]. *)
Definition bson (v : option value) : value :=
  match v with
  | Some x => x
  | None => VNull
  end.

Section Server.

Context {RT : Runtime}.

(** [process.env.ACCESS_TOKEN_SECRET]; the process exits at start when it is
    missing. *)
Variable ACCESS_TOKEN_SECRET : string.

Local Open Scope handler_scope.

(** *** Filters *)

Definition compile_regex (pat : value) (opts : string)
  : result (string -> bool) :=
  match pat with
  | VStr p =>
      match regex_compile p opts with
      | Some m => Ok m
      | None => Throw (MongoServerError "Regular expression is invalid")
      end
  | _ => Throw (MongoServerError "$regex has to be a string")
  end.

(** A filter is checked when the command is parsed, before any document is
    read; the predicate it yields may still fail on a document. *)
Definition compile_clause (c : clause) : result (document -> result bool) :=
  match c with
  | FieldEq f v => Ok (fun d => Ok (field_eq f v d))
  | FieldRegex f pat opts =>
      match compile_regex pat opts with
      | Ok m => Ok (fun d => Ok (field_regex f m d))
      | Throw e => Throw e
      end
  | ExprRegexMatchToString f pat opts =>
      match compile_regex pat opts with
      | Ok m => Ok (expr_regex_match f m)
      | Throw e => Throw e
      end
  end.

Fixpoint compile_clauses (cs : list clause)
  : result (list (document -> result bool)) :=
  match cs with
  | [] => Ok []
  | c :: cs' =>
      match compile_clause c with
      | Ok p =>
          match compile_clauses cs' with
          | Ok ps => Ok (p :: ps)
          | Throw e => Throw e
          end
      | Throw e => Throw e
      end
  end.

(** [$or]: the first clause that holds decides. *)
Fixpoint any_clause (ps : list (document -> result bool)) (d : document)
  : result bool :=
  match ps with
  | [] => Ok false
  | p :: ps' =>
      match p d with
      | Ok true => Ok true
      | Ok false => any_clause ps' d
      | Throw e => Throw e
      end
  end.

Definition compile_filter (q : filter_doc) : result (document -> result bool) :=
  match q with
  | QAll => Ok (fun _ => Ok true)
  | QWhere c => compile_clause c
  | QOr [] => Throw (MongoServerError "$or must be a nonempty array")
  | QOr cs =>
      match compile_clauses cs with
      | Ok ps => Ok (any_clause ps)
      | Throw e => Throw e
      end
  end.

(** The documents that satisfy a predicate, in the order of the collection. *)
Fixpoint select (p : document -> result bool) (ds : list document)
  : result (list document) :=
  match ds with
  | [] => Ok []
  | d :: ds' =>
      match p d with
      | Ok b =>
          match select p ds' with
          | Ok rest => Ok (if b then d :: rest else rest)
          | Throw e => Throw e
          end
      | Throw e => Throw e
      end
  end.

(** The first document that satisfies a predicate, with the documents before
    it and those after it. *)
Fixpoint split_first (p : document -> result bool) (ds : list document)
  : result (option (list document * document * list document)) :=
  match ds with
  | [] => Ok None
  | d :: ds' =>
      match p d with
      | Ok true => Ok (Some ([], d, ds'))
      | Ok false =>
          match split_first p ds' with
          | Ok (Some (before, x, after)) => Ok (Some (d :: before, x, after))
          | Ok None => Ok None
          | Throw e => Throw e
          end
      | Throw e => Throw e
      end
  end.

(** *** Collections *)

Definition documents (c : coll) (st : state) : list document :=
  match c with
  | serviceCollection => map service_doc (services st)
  | orderCollection => orders st
  end.

(** [collection.find(q).toArray()] *)
Definition find (c : coll) (q : filter_doc) : M (list document) :=
  log (DbFind c q) ;;
  p <- lift (compile_filter q) ;;
  ds <- gets (documents c) ;;
  lift (select p ds).

(** A projection [{ f: 1, ... }] keeps the listed fields and [_id]. *)
Definition project (fs : list string) (d : document) : document :=
  filter (fun kv => String.eqb (fst kv) "_id"
                    || existsb (String.eqb (fst kv)) fs) d.

(** [collection.findOne(q, { projection })]: the document or [null]. *)
Definition findOne (c : coll) (q : filter_doc) (projection : list string)
  : M value :=
  log (DbFindOne c q projection) ;;
  p <- lift (compile_filter q) ;;
  ds <- gets (documents c) ;;
  r <- lift (split_first p ds) ;;
  ret match r with
      | Some (_, d, _) => VObj (project projection d)
      | None => VNull
      end.

Definition has_id (id : value) (d : document) : bool :=
  match lookup "_id" d with
  | Some v => value_eqb v id
  | None => false
  end.

(** The document as the server stores it: [_id] comes first. *)
Definition stored (id : value) (d : document) : document :=
  ("_id", id) :: filter (fun kv => negb (String.eqb (fst kv) "_id")) d.

(** [orderCollection.insertOne(d)]: the driver gives the document an
    identifier when it has none ([d._id == null]); the server refuses an
    array as identifier and an identifier already in the collection. *)
Definition insertOne_orders (d : document) : M value :=
  log (DbInsertOne orderCollection d) ;;
  n <- gets inserted ;;
  id <- match lookup "_id" d with
        | None | Some VNull =>
            modify (with_inserted (S n)) ;;
            ret (VOid (createPk n))
        | Some v => ret v
        end ;;
  match id with
  | VArr _ =>
      throw (MongoServerError "The '_id' value cannot be of type array")
  | _ =>
      ds <- gets orders ;;
      if existsb (has_id id) ds
      then throw (MongoServerError "E11000 duplicate key error")
      else
        modify (with_orders (ds ++ [stored id d])) ;;
        ret (VObj [("acknowledged", VBool true); ("insertedId", id)])
  end.

(** [$set]: each field of the update is written into the document. *)
Definition apply_set (u : update_doc) (d : document) : document :=
  fold_left (fun acc kv => set_field (fst kv) (bson (snd kv)) acc) u d.

(** [orderCollection.updateOne(q, { $set: u })]: the first document that
    satisfies the filter is updated. *)
Definition updateOne_orders (q : filter_doc) (u : update_doc) : M value :=
  log (DbUpdateOne orderCollection q u) ;;
  p <- lift (compile_filter q) ;;
  ds <- gets orders ;;
  r <- lift (split_first p ds) ;;
  match r with
  | Some (before, d, after) =>
      let d' := apply_set u d in
      modify (with_orders (before ++ d' :: after)) ;;
      ret (VObj [("acknowledged", VBool true);
                 ("modifiedCount",
                   VNum (if value_eqb (VObj d) (VObj d') then 0 else 1));
                 ("upsertedId", VNull);
                 ("upsertedCount", VNum 0);
                 ("matchedCount", VNum 1)])
  | None =>
      ret (VObj [("acknowledged", VBool true);
                 ("modifiedCount", VNum 0);
                 ("upsertedId", VNull);
                 ("upsertedCount", VNum 0);
                 ("matchedCount", VNum 0)])
  end.

(** [orderCollection.deleteOne(q)]: the first document that satisfies the
    filter is removed. *)
Definition deleteOne_orders (q : filter_doc) : M value :=
  log (DbDeleteOne orderCollection q) ;;
  p <- lift (compile_filter q) ;;
  ds <- gets orders ;;
  r <- lift (split_first p ds) ;;
  match r with
  | Some (before, _, after) =>
      modify (with_orders (before ++ after)) ;;
      ret (VObj [("acknowledged", VBool true); ("deletedCount", VNum 1)])
  | None =>
      ret (VObj [("acknowledged", VBool true); ("deletedCount", VNum 0)])
  end.

(** *** The token library *)

(** [jwt.sign(payload, secret, options)]; it throws when signing fails. *)
Definition sign (payload : value) (secret : string) (opts : sign_options)
  : M string :=
  log (JwtSign payload) ;;
  now <- gets clock ;;
  match jwt_sign payload secret opts now with
  | Some token => ret token
  | None => throw (JsonWebTokenError "sign")
  end.

(** [jwt.verify(token, secret, callback)]: [None] stands for the call
    [callback(err)], [Some decoded] for [callback(null, decoded)].  A token
    that is not a string (the cookie parser decodes a JSON cookie to an
    object) is refused by the library. *)
Definition verify (token : value) (secret : string) : M (option value) :=
  log (JwtVerify token) ;;
  now <- gets clock ;;
  ret match token with
      | VStr t => jwt_verify t secret now
      | _ => None
      end.

(** [new ObjectId(id)] *)
Definition new_ObjectId (id : string) : M value :=
  match ObjectId_parse id with
  | Some hex => ret (VOid hex)
  | None => throw (BSONError "input must be a 24 character hex string")
  end.

(** ** The handlers of index.js *)

Definition error_message (msg : string) : value :=
  VObj [("error", VBool true); ("message", VStr msg)].

Definition with_decoded (dec : value) (req : request) : request :=
  {| req_method := req_method req; path := path req;
     params_id := params_id req; query := query req; body := body req;
     cookies := cookies req; decoded := Some dec |}.

(** [verifyJWT] (lines 50-67) *)
Definition verifyJWT (req : request) (next : request -> M unit) : M unit :=
  let token := lookup "access_token" (cookies req) in
  if negb (truthy token) then
    status 401 ;;
    send (error_message "Unauthorized access by token")
  else
    r <- verify (bson token) ACCESS_TOKEN_SECRET ;;
    match r with
    | None =>
        status 401 ;;
        send (error_message "Unauthorized access by token")
    | Some dec => next (with_decoded dec req)
    end.

(** [app.post("/jwt")] (lines 77-106) *)
Definition post_jwt (req : request) : M unit :=
  try (
    let user := body req in
    if negb (truthy (lookup "email" user)) then
      status 400 ;;
      send (error_message "Invalid request")
    else
      token <- sign (VObj [("email", bson (lookup "email" user))])
                 ACCESS_TOKEN_SECRET
                 {| expiresIn := "1h"; algorithm := "HS256" |} ;;
      set_cookie "access_token" token
        {| httpOnly := true; secure := true; sameSite := Some "none";
           maxAge := Some (60 * 60 * 1000)%Z; expires := None;
           cookie_path := None |} ;;
      send (VObj [("success", VBool true)])
  ) catch (fun _ =>
    status 500 ;;
    send (VObj [("error", VBool true)])).

(** [app.post("/logout")] (lines 109-111) *)
Definition post_logout (req : request) : M unit :=
  clearCookie "access_token"
    {| httpOnly := false; secure := false; sameSite := None;
       maxAge := Some 0%Z; expires := None; cookie_path := None |} ;;
  send (VObj [("success", VBool true)]).

(** The filter of the catalogue search (lines 118-135). *)
Definition search_filter (searchTerm : value) : filter_doc :=
  QOr [ FieldRegex "title" searchTerm "i";
        FieldRegex "service_id" searchTerm "i";
        FieldRegex "price" searchTerm "i";
        FieldRegex "description" searchTerm "i";
        ExprRegexMatchToString "_id" searchTerm "i" ].

(** [app.get("/services")] (lines 115-144) *)
Definition get_services (req : request) : M unit :=
  try (
    let searchTerm := js_or (lookup "search" (query req)) (VStr "") in
    let query := search_filter searchTerm in
    result <- find serviceCollection query ;;
    send (VArr (map VObj result))
  ) catch (fun _ =>
    status 500 ;;
    send (error_message "Failed to fetch services")).

(** [app.get("/services/:id")] (lines 146-154) *)
Definition get_service_by_id (req : request) : M unit :=
  let id := params_id req in
  _id <- new_ObjectId id ;;
  let query := QWhere (FieldEq "_id" _id) in
  result <- findOne serviceCollection query ["title"; "price"] ;;
  send result.

(** [app.post("/orders")] (lines 157-167) *)
Definition post_orders (req : request) : M unit :=
  try (
    let order := body req in
    result <- insertOne_orders order ;;
    send result
  ) catch (fun _ =>
    status 500 ;;
    send (error_message "Failed to create order")).

(** [req.decoded.email]: [req.decoded] is [undefined] until the guard has
    set it. *)
Definition decoded_email (req : request) : M (option value) :=
  match decoded req with
  | Some dec => lift (get_prop dec "email")
  | None => throw (TypeError "Cannot read properties of undefined")
  end.

(** The handler of [app.get("/orders")] (lines 170-190), which runs behind
    [verifyJWT]. *)
Definition get_orders (req : request) : M unit :=
  let email := lookup "email" (query req) in
  if negb (truthy email) then
    status 401 ;;
    send (error_message "Unauthorized access by email")
  else
    mine <- decoded_email req ;;
    if negb (strict_eq mine email) then
      status 401 ;;
      send (error_message "Unauthorized access by email")
    else
      let query := QWhere (FieldEq "email" (bson email)) in
      result <- find orderCollection query ;;
      send (VArr (map VObj result)).

(** [app.patch("/orders/:id")] (lines 193-201) *)
Definition patch_order (req : request) : M unit :=
  let id := params_id req in
  let new_status := lookup "status" (body req) in
  _id <- new_ObjectId id ;;
  let query := QWhere (FieldEq "_id" _id) in
  let updateDoc := [("status", new_status)] in
  result <- updateOne_orders query updateDoc ;;
  send result.

(** [app.delete("/orders/:id")] (lines 204-209) *)
Definition delete_order (req : request) : M unit :=
  let id := params_id req in
  _id <- new_ObjectId id ;;
  let query := QWhere (FieldEq "_id" _id) in
  result <- deleteOne_orders query ;;
  send result.

(** [app.get("/")] (lines 224-226) *)
Definition get_root (req : request) : M unit :=
  send (VStr "Hello World").

Definition with_id (id : string) (req : request) : request :=
  {| req_method := req_method req; path := path req; params_id := id;
     query := query req; body := body req; cookies := cookies req;
     decoded := decoded req |}.

(** The routing table: the routes registered with [app.get], [app.post],
    [app.patch] and [app.delete]; any other request gets the framework's
    404. *)
Definition route_of (m : method) (p : list string) : route :=
  match m, p with
  | POST, ["jwt"] => PostJwt
  | POST, ["logout"] => PostLogout
  | GET, ["services"] => GetServices
  | GET, ["services"; id] => GetServiceById id
  | POST, ["orders"] => PostOrders
  | GET, ["orders"] => GetOrders
  | PATCH, ["orders"; id] => PatchOrder id
  | DELETE, ["orders"; id] => DeleteOrder id
  | GET, [] => GetRoot
  | _, _ => NoRoute
  end.

Definition dispatch (req : request) : M unit :=
  match route_of (req_method req) (path req) with
  | PostJwt => post_jwt req
  | PostLogout => post_logout req
  | GetServices => get_services req
  | GetServiceById id => get_service_by_id (with_id id req)
  | PostOrders => post_orders req
  | GetOrders => verifyJWT req get_orders
  | PatchOrder id => patch_order (with_id id req)
  | DeleteOrder id => delete_order (with_id id req)
  | GetRoot => get_root req
  | NoRoute => status 404 ;; send (VStr "Not Found")
  end.

End Server.

(** ** Observations on a run *)

Definition final {A} (r : result A * state) : state := snd r.

Definition is_db_event (ev : event) : bool :=
  match ev with
  | JwtSign _ | JwtVerify _ => false
  | _ => true
  end.

Definition is_sign_event (ev : event) : bool :=
  match ev with
  | JwtSign _ => true
  | _ => false
  end.

(** An event leaves the catalogue alone when it is not a database call on
    [serviceCollection], or is one of the two reads. *)
Definition reads_services_only (ev : event) : bool :=
  match ev with
  | DbInsertOne serviceCollection _
  | DbUpdateOne serviceCollection _ _
  | DbDeleteOne serviceCollection _ => false
  | _ => true
  end.

(** A computation leaves the catalogue alone: from every state, it ends with
    the same [services], and the calls it has added to the trace are not
    writes to [serviceCollection]. *)
Definition keeps_services {A} (m : M A) : Prop :=
  forall st,
    services (final (m st)) = services st
    /\ exists evs, trace (final (m st)) = (trace st ++ evs)%list
                   /\ forallb reads_services_only evs = true.

(** The orders "whose email field equals A", in the words of the
    specification. *)
Definition orders_with_email (A : string) (ds : list document) : list document :=
  filter (fun d => match lookup "email" d with
                   | Some v => value_eqb v (VStr A)
                   | None => false
                   end) ds.

(** The orders that the filter [{ email: A }] selects: the email field is
    the string [A], or an array with the string [A] among its elements. *)
Definition email_matches (A : string) (d : document) : bool :=
  match lookup "email" d with
  | Some (VStr s) => String.eqb s A
  | Some (VArr items) =>
      existsb (fun v => match v with VStr s => String.eqb s A | _ => false end)
        items
  | _ => false
  end.

(** The strings of a catalogue entry that the search looks at. *)
Definition searched (s : service) : list string :=
  [svc_title s; svc_service_id s; svc_price s; svc_description s; svc_id s].

(** ** A sample runtime

    A small implementation of [Runtime], used to run the handlers on concrete
    requests.  Patterns are literal strings, matched anywhere and without
    regard to case; an identifier is 24 hexadecimal digits. *)
Module Sample.

Definition lower (c : ascii) : ascii :=
  let n := nat_of_ascii c in
  if (65 <=? n)%nat && (n <=? 90)%nat then ascii_of_nat (n + 32) else c.

Fixpoint lowercase (s : string) : string :=
  match s with
  | EmptyString => EmptyString
  | String c s' => String (lower c) (lowercase s')
  end.

Fixpoint contains (p s : string) : bool :=
  prefix p s
  || match s with
     | EmptyString => false
     | String _ s' => contains p s'
     end.

Definition metachars : list ascii :=
  list_ascii_of_string "\^$.|?*+()[]{}".

Fixpoint all_chars (f : ascii -> bool) (s : string) : bool :=
  match s with
  | EmptyString => true
  | String c s' => f c && all_chars f s'
  end.

Definition literal (p : string) : bool :=
  all_chars (fun c => negb (existsb (Ascii.eqb c) metachars)) p.

Definition compile (p opts : string) : option (string -> bool) :=
  if literal p then
    Some (if String.eqb opts "i"
          then fun s => contains (lowercase p) (lowercase s)
          else contains p)
  else None.

Definition is_hex (c : ascii) : bool :=
  existsb (Ascii.eqb (lower c)) (list_ascii_of_string "0123456789abcdef").

Definition parse_id (s : string) : option string :=
  if (String.length s =? 24)%nat && all_chars is_hex s
  then Some (lowercase s) else None.

Fixpoint zeros (n : nat) : string :=
  match n with
  | O => EmptyString
  | S n' => String "0" (zeros n')
  end.

Definition make_id (n : nat) : string :=
  let digits := decimal (Z.of_nat n) in
  zeros (24 - String.length digits) ++ digits.

(** The sample tokens: a keyed checksum, the expiry in seconds and the
    email, separated by dots.  Only payloads with a string email are signed,
    and only the time span ["1h"] is known. *)
Fixpoint checksum (s : string) : N :=
  match s with
  | EmptyString => 7%N
  | String c s' => ((N_of_ascii c + 31 * checksum s') mod 65521)%N
  end.

Definition tag (secret : string) (exp : Z) (email : string) : string :=
  decimal (Z.of_N (checksum (secret ++ "." ++ decimal exp ++ "." ++ email))).

Definition seconds (now : Z) : Z := (now / 1000)%Z.

Definition sign_token (payload : value) (secret : string)
  (opts : sign_options) (now : Z) : option string :=
  match payload with
  | VObj [("email", VStr e)] =>
      if String.eqb (expiresIn opts) "1h" then
        let exp := (seconds now + 3600)%Z in
        Some (tag secret exp e ++ "." ++ decimal exp ++ "." ++ e)
      else None
  | _ => None
  end.

Fixpoint split_dot (s : string) : option (string * string) :=
  match s with
  | EmptyString => None
  | String c s' =>
      if Ascii.eqb c "." then Some (EmptyString, s')
      else match split_dot s' with
           | Some (a, b) => Some (String c a, b)
           | None => None
           end
  end.

Definition number (s : string) : option Z :=
  match NilZero.int_of_string s with
  | Some n => Some (Z.of_int n)
  | None => None
  end.

Definition verify_token (token secret : string) (now : Z) : option value :=
  match split_dot token with
  | Some (mac, rest) =>
      match split_dot rest with
      | Some (exp_digits, e) =>
          match number exp_digits with
          | Some exp =>
              if String.eqb mac (tag secret exp e) && (seconds now <? exp)%Z
              then Some (VObj [("email", VStr e); ("exp", VNum exp)])
              else None
          | None => None
          end
      | None => None
      end
  | None => None
  end.

#[export] Instance runtime : Runtime := {|
  jwt_sign := sign_token;
  jwt_verify := verify_token;
  regex_compile := compile;
  ObjectId_parse := parse_id;
  createPk := make_id
|}.

Definition secret : string := "s3cret".

Definition empty_state : state :=
  {| services := []; orders := []; clock := 0; inserted := 0;
     res := fresh_response; trace := [] |}.

Definition request_of (m : method) (p : list string) : request :=
  {| req_method := m; path := p; params_id := ""; query := []; body := [];
     cookies := []; decoded := None |}.

Definition with_query (q : document) (req : request) : request :=
  {| req_method := req_method req; path := path req;
     params_id := params_id req; query := q; body := body req;
     cookies := cookies req; decoded := decoded req |}.

Definition with_body (b : document) (req : request) : request :=
  {| req_method := req_method req; path := path req;
     params_id := params_id req; query := query req; body := b;
     cookies := cookies req; decoded := decoded req |}.

Definition with_cookies (c : document) (req : request) : request :=
  {| req_method := req_method req; path := path req;
     params_id := params_id req; query := query req; body := body req;
     cookies := c; decoded := decoded req |}.

(** A fresh response for the next request on the same database. *)
Definition next_request (st : state) : state :=
  with_res (fun _ => fresh_response) st.

Definition brakes : service :=
  {| svc_id := "635b4d1f2a3c4e5f6a7b8c9d"; svc_service_id := "04";
     svc_title := "Brake Repair"; svc_price := "120.00";
     svc_description := "Pads and discs"; svc_extra := [] |}.

Definition oil : service :=
  {| svc_id := "635b4d1f2a3c4e5f6a7b8c9e"; svc_service_id := "05";
     svc_title := "Engine Oil Change"; svc_price := "20.00";
     svc_description := "Synthetic oil"; svc_extra := [] |}.

Definition garage : state :=
  {| services := [brakes; oil];
     orders :=
       [ [("_id", VOid "000000000000000000000001");
          ("email", VStr "ann@example.com"); ("status", VStr "pending");
          ("service", VStr "Brake Repair")];
         [("_id", VOid "000000000000000000000002");
          ("email", VStr "bob@example.com"); ("service", VStr "Engine Oil Change")] ];
     clock := 1000; inserted := 2; res := fresh_response; trace := [] |}.

(** The token that POST /jwt issues to ann at the time of [garage]; it
    expires at second 3601. *)
Definition ann_token : string := "22842.3601.ann@example.com".

(** The same token with another checksum. *)
Definition forged_token : string := "11111.3601.ann@example.com".

Definition at_time (t : Z) (st : state) : state :=
  {| services := services st; orders := orders st; clock := t;
     inserted := inserted st; res := res st; trace := trace st |}.

End Sample.

(** ** The earlier server (src/unnamed/part_000)

    The same routes without the token endpoints, the guard and the
    [try]/[catch] blocks: the catalogue is listed whole, orders are listed to
    any caller. *)
Module Part000.

Section Handlers.

Context {RT : Runtime}.

Local Open Scope handler_scope.

(** [app.get("/services")] (part_000, lines 35-38) *)
Definition get_services (req : request) : M unit :=
  result <- find serviceCollection QAll ;;
  send (VArr (map VObj result)).

(** [app.post("/orders")] (part_000, lines 52-57) *)
Definition post_orders (req : request) : M unit :=
  let order := body req in
  result <- insertOne_orders order ;;
  send result.

(** [app.get("/orders")] (part_000, lines 60-66) *)
Definition get_orders (req : request) : M unit :=
  let email := lookup "email" (query req) in
  let query := QWhere (FieldEq "email" (bson email)) in
  result <- find orderCollection query ;;
  send (VArr (map VObj result)).

Definition route_of (m : method) (p : list string) : route :=
  match m, p with
  | GET, ["services"] => GetServices
  | GET, ["services"; id] => GetServiceById id
  | POST, ["orders"] => PostOrders
  | GET, ["orders"] => GetOrders
  | PATCH, ["orders"; id] => PatchOrder id
  | DELETE, ["orders"; id] => DeleteOrder id
  | GET, [] => GetRoot
  | _, _ => NoRoute
  end.

(** The handlers of [/services/:id], of PATCH and DELETE [/orders/:id] and
    of [/] are those of index.js, line for line. *)
Definition dispatch (req : request) : M unit :=
  match route_of (req_method req) (path req) with
  | GetServices => get_services req
  | GetServiceById id => get_service_by_id (with_id id req)
  | PostOrders => post_orders req
  | GetOrders => get_orders req
  | PatchOrder id => patch_order (with_id id req)
  | DeleteOrder id => delete_order (with_id id req)
  | GetRoot => get_root req
  | _ => status 404 ;; send (VStr "Not Found")
  end.

End Handlers.

End Part000.

(** ** Further observations *)

(** The state in which the next request is served: the same database, a
    response not yet written. *)
Definition next_turn (st : state) : state :=
  with_res (fun _ => fresh_response) st.

(** A computation leaves an observation of the state as it is. *)
Definition preserves {X A} (proj : state -> X) (m : M A) : Prop :=
  forall st, proj (final (m st)) = proj st.

(** The routes whose handler writes to the orders. *)
Definition writes_orders (r : route) : bool :=
  match r with
  | PostOrders | PatchOrder _ | DeleteOrder _ => true
  | _ => false
  end.


(** A stored document carries an identifier, which is not an array. *)
Definition identified (d : document) : bool :=
  match lookup "_id" d with
  | Some (VArr _) | None => false
  | Some _ => true
  end.

(** No two documents carry the same identifier. *)
Fixpoint unique_ids (ds : list document) : bool :=
  match ds with
  | [] => true
  | d :: ds' =>
      negb (existsb (has_id (bson (lookup "_id" d))) ds') && unique_ids ds'
  end.

Definition well_kept (ds : list document) : bool :=
  forallb identified ds && unique_ids ds.

(** The identifiers of the orders listed for an email, in order. *)
Definition listed_ids (A : string) (ds : list document) : list (option value) :=
  map (lookup "_id") (filter (email_matches A) ds).

(** The collection after [updateOne] and after [deleteOne], for a filter
    that does not fail: the first selected document is rewritten, or
    removed. *)
Fixpoint update_first (sel : document -> bool) (f : document -> document)
  (ds : list document) : list document :=
  match ds with
  | [] => []
  | d :: ds' => if sel d then f d :: ds' else d :: update_first sel f ds'
  end.

Fixpoint remove_first (sel : document -> bool) (ds : list document)
  : list document :=
  match ds with
  | [] => []
  | d :: ds' => if sel d then ds' else d :: remove_first sel ds'
  end.

(** The identifier under which [insertOne] stores a document: its own, or
    the one the driver generates when it has none. *)
Definition assigned_id {RT : Runtime} (n : nat) (d : document) : value :=
  match lookup "_id" d with
  | None | Some VNull => VOid (createPk n)
  | Some v => v
  end.

(** The server accepts an identifier that is not an array and is not in the
    collection yet. *)
Definition acceptable (id : value) (ds : list document) : bool :=
  match id with
  | VArr _ => false
  | _ => negb (existsb (has_id id) ds)
  end.

(** The values that the query-string parser produces: strings, arrays and
    objects. *)
Definition query_value (v : value) : bool :=
  match v with
  | VStr _ | VArr _ | VObj _ => true
  | _ => false
  end.

(** The routes whose handler has a [catch] of its own or cannot throw. *)
Definition never_throws (r : route) : bool :=
  match r with
  | PostJwt | PostLogout | GetServices | PostOrders | GetRoot => true
  | _ => false
  end.

(** ** More sample data *)

(** The garage after five more identifiers have been generated. *)
Definition workshop : state :=
  {| services := services Sample.garage; orders := orders Sample.garage;
     clock := 1000; inserted := 7; res := fresh_response; trace := [] |}.

(** A runtime whose one token, ["n5"], carries the number 5 as email. *)
Definition numbered : Runtime := {|
  jwt_sign := fun _ _ _ _ => Some "n5";
  jwt_verify := fun t _ _ =>
    if String.eqb t "n5" then Some (VObj [("email", VNum 5)]) else None;
  regex_compile := Sample.compile;
  ObjectId_parse := Sample.parse_id;
  createPk := Sample.make_id
|}.




(** * Properties *)

Ltac unfold_monad :=
  unfold clearCookie in *;
  unfold log, status, send, set_cookie, final in *;
  unfold bind, ret, throw, try_catch, lift, gets, modify in *.

(** ** Lookup and update of fields *)

Lemma lookup_set_field_same (k : string) (v : value) (d : document) :
  lookup k (set_field k v d) = Some v.
Proof.
  induction d as [|[k' v'] d IH]; simpl.
  - now rewrite String.eqb_refl.
  - destruct (String.eqb k k') eqn:E; simpl; rewrite E; auto.
Qed.

Lemma lookup_set_field_other (k k0 : string) (v : value) (d : document) :
  k0 <> k -> lookup k0 (set_field k v d) = lookup k0 d.
Proof.
  intros Hne.
  induction d as [|[k' v'] d IH]; simpl.
  - destruct (String.eqb k0 k) eqn:E; auto.
    apply String.eqb_eq in E. contradiction.
  - destruct (String.eqb k k') eqn:E; simpl.
    + apply String.eqb_eq in E. subst k'.
      destruct (String.eqb k0 k) eqn:E0; auto.
      apply String.eqb_eq in E0. contradiction.
    + now rewrite IH.
Qed.

(** ** Filters on one field *)

Lemma value_eqb_VStr (A : string) (v : value) :
  value_eqb (VStr A) v = match v with VStr s => String.eqb A s | _ => false end.
Proof. destruct v; reflexivity. Qed.

Lemma value_eqb_VOid (h : string) (v : value) :
  value_eqb (VOid h) v = true <-> v = VOid h.
Proof.
  destruct v; simpl; split; intros H; try discriminate.
  - apply String.eqb_eq in H. now subst.
  - inversion H. apply String.eqb_refl.
Qed.

Lemma field_eq_email (A : string) (d : document) :
  field_eq "email" (VStr A) d = email_matches A d.
Proof.
  unfold field_eq, email_matches, eq_match.
  destruct (lookup "email" d) as [v|]; [|reflexivity].
  destruct v; simpl; try reflexivity.
  - rewrite orb_false_r. apply String.eqb_sym.
  - induction items as [|x xs IH]; simpl; [reflexivity|].
    rewrite IH. destruct x; simpl; try reflexivity.
    now rewrite String.eqb_sym.
Qed.

Section Selection.

Context {RT : Runtime}.

(** A predicate that never fails selects as [filter] does. *)
Lemma select_total (f : document -> bool) (ds : list document) :
  select (fun d => Ok (f d)) ds = Ok (filter f ds).
Proof.
  induction ds as [|d ds IH]; simpl; [reflexivity|].
  rewrite IH. reflexivity.
Qed.

Lemma select_ext (p q : document -> result bool) (ds : list document) :
  (forall d, In d ds -> p d = q d) -> select p ds = select q ds.
Proof.
  induction ds as [|d ds IH]; simpl; intros H; [reflexivity|].
  rewrite (H d) by now left.
  rewrite IH by (intros; apply H; now right).
  reflexivity.
Qed.

(** What [split_first] returns: the collection cut at the first document
    that satisfies the predicate. *)
Lemma split_first_total_some (f : document -> bool) (ds pre post : list document)
  (d : document) :
  split_first (fun x => Ok (f x)) ds = Ok (Some (pre, d, post)) ->
  ds = (pre ++ d :: post)%list /\ f d = true /\ forallb (fun x => negb (f x)) pre = true.
Proof.
  revert pre.
  induction ds as [|x ds IH]; simpl; intros pre H; [discriminate|].
  destruct (f x) eqn:E.
  - inversion H; subst. simpl. auto.
  - destruct (split_first (fun x => Ok (f x)) ds) as [[[[b y] a]|]|] eqn:S;
      try discriminate.
    inversion H; subst. destruct (IH b eq_refl) as (-> & Hd & Hb).
    simpl. rewrite E. simpl. auto.
Qed.

Lemma split_first_total_none (f : document -> bool) (ds : list document) :
  split_first (fun x => Ok (f x)) ds = Ok None ->
  forallb (fun x => negb (f x)) ds = true.
Proof.
  induction ds as [|x ds IH]; simpl; intros H; [reflexivity|].
  destruct (f x) eqn:E; [discriminate|].
  destruct (split_first (fun x => Ok (f x)) ds) as [[[[b y] a]|]|] eqn:S;
    try discriminate.
  simpl. auto.
Qed.

Lemma split_first_total_ok (f : document -> bool) (ds : list document) :
  exists r, split_first (fun x => Ok (f x)) ds = Ok r.
Proof.
  induction ds as [|x ds [r IH]]; simpl; [now eexists|].
  destruct (f x); [now eexists|].
  rewrite IH. destruct r as [[[b y] a]|]; now eexists.
Qed.

End Selection.

Section Guard.

Context {RT : Runtime}.
Variable SECRET : string.

(** ** The access guard *)

(** C3. A request to GET /orders without the [access_token] cookie, or with
    a cookie that the token library refuses under the server's secret (bad
    signature, expired), is answered 401 with the error body; the state
    reached is the same whatever handler stands behind the guard, so that
    handler does not run, and no database call is made. *)
Theorem guard_rejects_without_valid_token (req : request) (st : state) :
  req_method req = GET ->
  path req = ["orders"] ->
  lookup "access_token" (cookies req) = None
  \/ (exists t, lookup "access_token" (cookies req) = Some (VStr t)
                /\ jwt_verify t SECRET (clock st) = None) ->
  exists st',
    dispatch SECRET req st = (Ok tt, st')
    /\ (forall next, verifyJWT SECRET req next st = (Ok tt, st'))
    /\ res_status (res st') = 401
    /\ res_body (res st')
       = Some (error_message "Unauthorized access by token")
    /\ services st' = services st
    /\ orders st' = orders st
    /\ exists evs, trace st' = (trace st ++ evs)%list
                   /\ forallb (fun ev => negb (is_db_event ev)) evs = true.
Proof.
  intros Hm Hp Hcookie.
  unfold dispatch. rewrite Hm, Hp. cbn [route_of].
  destruct Hcookie as [Habsent | (t & Hpresent & Hrefused)].
  - eexists. split; [|split].
    + unfold verifyJWT. rewrite Habsent. cbn [truthy negb].
      unfold_monad. reflexivity.
    + intros next. unfold verifyJWT. rewrite Habsent. reflexivity.
    + cbn. repeat split; try reflexivity.
      exists []. now rewrite app_nil_r.
  - destruct (truthy (Some (VStr t))) eqn:Ht.
    + eexists. split; [|split].
      * unfold verifyJWT, verify. rewrite Hpresent, Ht. cbn [negb bson].
        unfold_monad. cbn. rewrite Hrefused. reflexivity.
      * intros next. unfold verifyJWT, verify. rewrite Hpresent, Ht.
        cbn [negb bson]. unfold_monad. cbn. rewrite Hrefused. reflexivity.
      * cbn. repeat split; try reflexivity.
        exists [JwtVerify (VStr t)]. split; reflexivity.
    + eexists. split; [|split].
      * unfold verifyJWT. rewrite Hpresent, Ht. cbn [negb].
        unfold_monad. reflexivity.
      * intros next. unfold verifyJWT. rewrite Hpresent, Ht. reflexivity.
      * cbn. repeat split; try reflexivity.
        exists []. now rewrite app_nil_r.
Qed.

End Guard.

Lemma email_matches_spec (A : string) (d : document) :
  email_matches A d = true <->
  lookup "email" d = Some (VStr A)
  \/ exists items, lookup "email" d = Some (VArr items) /\ In (VStr A) items.
Proof.
  unfold email_matches.
  destruct (lookup "email" d) as [v|].
  2:{ split; [discriminate | intros [H | (items & H & _)]; discriminate]. }
  destruct v; try (split; [discriminate
                          | intros [H | (its & H & _)]; discriminate]).
  - split.
    + intros H. apply String.eqb_eq in H. subst. now left.
    + intros [H | (its & H & _)]; [|discriminate].
      inversion H. apply String.eqb_refl.
  - split.
    + intros H. right. exists items. split; [reflexivity|].
      apply existsb_exists in H. destruct H as (x & Hin & Hx).
      destruct x; try discriminate.
      apply String.eqb_eq in Hx. now subst.
    + intros [H | (its & H & Hin)]; [discriminate|].
      inversion H; subst its. apply existsb_exists.
      exists (VStr A). split; [assumption | apply String.eqb_refl].
Qed.

Section Orders.

Context {RT : Runtime}.
Variable SECRET : string.

(** ** Listing orders *)

(** C1. A request to GET /orders whose credential verifies for email [A]
    while the [email] query parameter is [B], with [A <> B], is answered 401
    with an error body; the collections are untouched and no database call
    is made. *)
Theorem orders_of_another_email_refused
  (req : request) (st : state) (t : string) (dec : value) (A B : string) :
  req_method req = GET ->
  path req = ["orders"] ->
  lookup "access_token" (cookies req) = Some (VStr t) ->
  jwt_verify t SECRET (clock st) = Some dec ->
  get_prop dec "email" = Ok (Some (VStr A)) ->
  lookup "email" (query req) = Some (VStr B) ->
  A <> B ->
  exists st',
    dispatch SECRET req st = (Ok tt, st')
    /\ res_status (res st') = 401
    /\ (exists msg, res_body (res st') = Some (error_message msg))
    /\ services st' = services st
    /\ orders st' = orders st
    /\ exists evs, trace st' = (trace st ++ evs)%list
                   /\ forallb (fun ev => negb (is_db_event ev)) evs = true.
Proof.
  intros Hm Hp Hcookie Hverify Hmine Hquery Hne.
  unfold dispatch. rewrite Hm, Hp. cbn [route_of].
  unfold verifyJWT, verify. rewrite Hcookie.
  destruct (truthy (Some (VStr t))) eqn:Ht; cbn [negb bson].
  - unfold_monad. cbn. rewrite Hverify.
    unfold get_orders, decoded_email. cbn [with_decoded query decoded].
    rewrite Hquery.
    destruct (truthy (Some (VStr B))) eqn:HB; cbn [negb].
    + unfold_monad. rewrite Hmine. cbn [strict_eq].
      apply String.eqb_neq in Hne. rewrite Hne. cbn [negb].
      eexists. split; [reflexivity|]. cbn.
      repeat split; try reflexivity; eauto.
    + unfold_monad. eexists. split; [reflexivity|]. cbn.
      repeat split; try reflexivity; eauto.
  - unfold_monad. eexists. split; [reflexivity|]. cbn.
    repeat split; try reflexivity; eauto.
    exists []. now rewrite app_nil_r.
Qed.

(** C10. A request to GET /orders with a valid credential and no [email]
    query parameter (absent or empty) is answered 401 with an error body:
    the response carries no orders, the collections are untouched and no
    database call is made. *)
Theorem orders_without_email_refused
  (req : request) (st : state) (t : string) (dec : value) :
  req_method req = GET ->
  path req = ["orders"] ->
  lookup "access_token" (cookies req) = Some (VStr t) ->
  jwt_verify t SECRET (clock st) = Some dec ->
  lookup "email" (query req) = None
  \/ lookup "email" (query req) = Some (VStr "") ->
  exists st',
    dispatch SECRET req st = (Ok tt, st')
    /\ res_status (res st') = 401
    /\ (exists msg, res_body (res st') = Some (error_message msg))
    /\ services st' = services st
    /\ orders st' = orders st
    /\ exists evs, trace st' = (trace st ++ evs)%list
                   /\ forallb (fun ev => negb (is_db_event ev)) evs = true.
Proof.
  intros Hm Hp Hcookie Hverify Hquery.
  assert (Hfalsy : truthy (lookup "email" (query req)) = false)
    by (destruct Hquery as [-> | ->]; reflexivity).
  unfold dispatch. rewrite Hm, Hp. cbn [route_of].
  unfold verifyJWT, verify. rewrite Hcookie.
  destruct (truthy (Some (VStr t))) eqn:Ht; cbn [negb bson].
  - unfold_monad. cbn. rewrite Hverify.
    unfold get_orders. cbn [with_decoded query].
    rewrite Hfalsy. cbn [negb]. unfold_monad.
    eexists. split; [reflexivity|]. cbn.
    repeat split; try reflexivity; eauto.
  - unfold_monad. eexists. split; [reflexivity|]. cbn.
    repeat split; try reflexivity; eauto.
    exists []. now rewrite app_nil_r.
Qed.

(** C2, as amended. A request to GET /orders whose credential verifies for a
    non-empty email [A] and whose [email] query parameter is [A] is answered
    with exactly the orders that the filter [{ email: A }] selects, in the
    order of the collection: those whose email field is [A] and those whose
    email field is an array with [A] among its elements. *)
Theorem orders_of_own_email_listed
  (req : request) (st : state) (t : string) (dec : value) (A : string) :
  req_method req = GET ->
  path req = ["orders"] ->
  lookup "access_token" (cookies req) = Some (VStr t) ->
  t <> "" ->
  jwt_verify t SECRET (clock st) = Some dec ->
  get_prop dec "email" = Ok (Some (VStr A)) ->
  lookup "email" (query req) = Some (VStr A) ->
  A <> "" ->
  exists st',
    dispatch SECRET req st = (Ok tt, st')
    /\ res_body (res st')
       = Some (VArr (map VObj (filter (email_matches A) (orders st))))
    /\ res_status (res st') = res_status (res st)
    /\ services st' = services st
    /\ orders st' = orders st
    /\ (forall d, In d (filter (email_matches A) (orders st)) <->
          In d (orders st)
          /\ (lookup "email" d = Some (VStr A)
              \/ exists items, lookup "email" d = Some (VArr items)
                               /\ In (VStr A) items)).
Proof.
  intros Hm Hp Hcookie Ht Hverify Hmine Hquery HA.
  unfold dispatch. rewrite Hm, Hp. cbn [route_of].
  unfold verifyJWT, verify. rewrite Hcookie.
  apply String.eqb_neq in Ht. apply String.eqb_neq in HA.
  cbn [truthy]. rewrite Ht. cbn [negb bson].
  unfold_monad. cbn. rewrite Hverify.
  unfold get_orders, decoded_email, find. cbn [with_decoded query decoded].
  rewrite Hquery. cbn [truthy]. rewrite HA. cbn [negb].
  unfold_monad. rewrite Hmine. cbn [strict_eq].
  rewrite String.eqb_refl. cbn [negb bson compile_filter compile_clause].
  cbn [documents orders].
  rewrite select_total.
  rewrite (filter_ext _ _ (field_eq_email A)).
  eexists. split; [reflexivity|]. cbn.
  repeat (split; [reflexivity|]).
  intros d. rewrite filter_In, email_matches_spec. reflexivity.
Qed.

End Orders.

Section Tokens.

Context {RT : Runtime}.
Variable SECRET : string.

(** ** Issuing a token *)

(** C6. A request to POST /jwt whose body has no [email] field, or an empty
    one, is answered 400 with the error body; no cookie is added to the
    response and the token library is not called (the trace is unchanged). *)
Theorem jwt_without_email_refused (req : request) (st : state) :
  req_method req = POST ->
  path req = ["jwt"] ->
  lookup "email" (body req) = None
  \/ lookup "email" (body req) = Some (VStr "") ->
  exists st',
    dispatch SECRET req st = (Ok tt, st')
    /\ res_status (res st') = 400
    /\ res_body (res st') = Some (error_message "Invalid request")
    /\ res_cookies (res st') = res_cookies (res st)
    /\ trace st' = trace st
    /\ services st' = services st
    /\ orders st' = orders st.
Proof.
  intros Hm Hp Hemail.
  assert (Hfalsy : truthy (lookup "email" (body req)) = false)
    by (destruct Hemail as [-> | ->]; reflexivity).
  unfold dispatch. rewrite Hm, Hp. cbn [route_of].
  unfold post_jwt. rewrite Hfalsy. cbn [negb].
  unfold_monad. eexists. split; [reflexivity|].
  cbn. repeat split; reflexivity.
Qed.

(** C9. A request to POST /jwt with a non-empty email, when signing
    succeeds, adds one cookie to the response: it is named [access_token],
    is http-only, secure, with SameSite=None and a max age of 3600 * 1000
    milliseconds (one hour), and its value is the token that the library
    signs for the payload [{ email }] under the server's secret with
    [expiresIn: "1h"]. *)
Theorem jwt_sets_access_token_cookie
  (req : request) (st : state) (email : value) (token : string) :
  req_method req = POST ->
  path req = ["jwt"] ->
  lookup "email" (body req) = Some email ->
  truthy (Some email) = true ->
  jwt_sign (VObj [("email", email)]) SECRET
    {| expiresIn := "1h"; algorithm := "HS256" |} (clock st) = Some token ->
  exists st',
    dispatch SECRET req st = (Ok tt, st')
    /\ res_cookies (res st')
       = (res_cookies (res st)
          ++ [{| cookie_name := "access_token";
                 cookie_value := token;
                 cookie_opts :=
                   {| httpOnly := true; secure := true;
                      sameSite := Some "none";
                      maxAge := Some (3600 * 1000)%Z;
                      expires := None; cookie_path := None |} |}])%list
    /\ res_body (res st') = Some (VObj [("success", VBool true)])
    /\ res_status (res st') = res_status (res st)
    /\ trace st' = (trace st ++ [JwtSign (VObj [("email", email)])])%list.
Proof.
  intros Hm Hp Hemail Htruthy Hsign.
  unfold dispatch. rewrite Hm, Hp. cbn [route_of].
  unfold post_jwt, sign. rewrite Hemail, Htruthy. cbn [negb bson].
  unfold_monad. cbn. rewrite Hsign.
  eexists. split; [reflexivity|].
  cbn. repeat split; reflexivity.
Qed.

(** When signing throws, the handler's own [catch] answers 500 and sets no
    cookie. *)
Lemma jwt_sign_failure_answers_500
  (req : request) (st : state) (email : value) :
  req_method req = POST ->
  path req = ["jwt"] ->
  lookup "email" (body req) = Some email ->
  truthy (Some email) = true ->
  jwt_sign (VObj [("email", email)]) SECRET
    {| expiresIn := "1h"; algorithm := "HS256" |} (clock st) = None ->
  exists st',
    dispatch SECRET req st = (Ok tt, st')
    /\ res_status (res st') = 500
    /\ res_body (res st') = Some (VObj [("error", VBool true)])
    /\ res_cookies (res st') = res_cookies (res st).
Proof.
  intros Hm Hp Hemail Htruthy Hsign.
  unfold dispatch. rewrite Hm, Hp. cbn [route_of].
  unfold post_jwt, sign. rewrite Hemail, Htruthy. cbn [negb bson].
  unfold_monad. cbn. rewrite Hsign.
  eexists. split; [reflexivity|].
  cbn. repeat split; reflexivity.
Qed.

End Tokens.

Section Identifiers.

Context {RT : Runtime}.
Variable SECRET : string.

(** ** Routes with an identifier *)

(** C4, what the code does. On GET /services/:id, PATCH /orders/:id and
    DELETE /orders/:id with an identifier that [ObjectId] refuses, the
    handler throws before it touches the response or the database: the state
    is unchanged, no status is set and no body is sent. *)
Theorem malformed_id_throws (req : request) (st : state) (id : string) :
  ObjectId_parse id = None ->
  (req_method req = GET /\ path req = ["services"; id])
  \/ (req_method req = PATCH /\ path req = ["orders"; id])
  \/ (req_method req = DELETE /\ path req = ["orders"; id]) ->
  dispatch SECRET req st
  = (Throw (BSONError "input must be a 24 character hex string"), st).
Proof.
  intros Hid [[Hm Hp] | [[Hm Hp] | [Hm Hp]]];
    unfold dispatch; rewrite Hm, Hp; cbn [route_of];
    unfold get_service_by_id, patch_order, delete_order, new_ObjectId;
    cbn [with_id params_id]; rewrite Hid; reflexivity.
Qed.

(** The sibling handler GET /services catches a failure of its database call
    and answers 500 itself. *)
Lemma get_services_answers_500 (req : request) (st : state) (term : string) :
  req_method req = GET ->
  path req = ["services"] ->
  lookup "search" (query req) = Some (VStr term) ->
  regex_compile term "i" = None ->
  exists st',
    dispatch SECRET req st = (Ok tt, st')
    /\ res_status (res st') = 500
    /\ res_body (res st') = Some (error_message "Failed to fetch services").
Proof.
  intros Hm Hp Hq Hbad.
  unfold dispatch. rewrite Hm, Hp. cbn [route_of].
  unfold get_services, find. rewrite Hq.
  assert (Hterm : js_or (Some (VStr term)) (VStr "") = VStr term).
  { unfold js_or. cbn [truthy]. destruct (String.eqb term "") eqn:E;
      [apply String.eqb_eq in E; now subst | reflexivity]. }
  rewrite Hterm. unfold_monad.
  cbn [search_filter compile_filter compile_clauses compile_clause compile_regex].
  rewrite Hbad. eexists. split; [reflexivity|]. cbn. split; reflexivity.
Qed.

End Identifiers.

Section Orders_update.

Context {RT : Runtime}.
Variable SECRET : string.

(** ** Updating an order *)

(** C8. A request to PATCH /orders/:id with a well-formed identifier changes
    at most one order: the first one that the filter [{ _id: id }] selects.
    In that order the [status] field becomes the value supplied in the body
    (written as [null] when the body has none) and every other field keeps
    its value; the orders before and after it, and the catalogue, are
    unchanged.  When no order is selected, nothing changes. *)
Theorem patch_order_sets_status_only
  (req : request) (st : state) (id hex : string) :
  req_method req = PATCH ->
  path req = ["orders"; id] ->
  ObjectId_parse id = Some hex ->
  let supplied := lookup "status" (body req) in
  let selected := field_eq "_id" (VOid hex) in
  exists st',
    dispatch SECRET req st = (Ok tt, st')
    /\ services st' = services st
    /\ (forall v, supplied = Some v -> bson supplied = v)
    /\ ((forallb (fun d => negb (selected d)) (orders st) = true
         /\ orders st' = orders st)
        \/ exists pre d post,
             orders st = (pre ++ d :: post)%list
             /\ forallb (fun x => negb (selected x)) pre = true
             /\ selected d = true
             /\ orders st'
                = (pre ++ set_field "status" (bson supplied) d :: post)%list
             /\ lookup "status" (set_field "status" (bson supplied) d)
                = Some (bson supplied)
             /\ forall k, k <> "status" ->
                  lookup k (set_field "status" (bson supplied) d) = lookup k d).
Proof.
  intros Hm Hp Hid supplied selected.
  unfold dispatch. rewrite Hm, Hp. cbn [route_of].
  unfold patch_order, new_ObjectId, updateOne_orders.
  cbn [with_id params_id body]. rewrite Hid.
  unfold_monad. cbn [compile_filter compile_clause orders].
  fold supplied. fold selected.
  destruct (split_first_total_ok selected (orders st)) as [r Hr].
  rewrite Hr. destruct r as [[[pre d] post]|].
  - apply split_first_total_some in Hr. destruct Hr as (Hsplit & Hd & Hpre).
    eexists. split; [reflexivity|]. cbn.
    split; [reflexivity|]. split; [now intros v ->|].
    right. exists pre, d, post.
    repeat split; try assumption.
    + apply lookup_set_field_same.
    + intros k Hk. now apply lookup_set_field_other.
  - apply split_first_total_none in Hr.
    eexists. split; [reflexivity|]. cbn.
    split; [reflexivity|]. split; [now intros v ->|].
    left. split; [assumption | reflexivity].
Qed.

(** Where identifiers are not arrays, as in every collection the server
    keeps, the filter [{ _id: id }] selects the documents whose [_id] is
    [id]. *)
Lemma selected_by_id (hex : string) (d : document) :
  (forall items, lookup "_id" d <> Some (VArr items)) ->
  field_eq "_id" (VOid hex) d = true <-> lookup "_id" d = Some (VOid hex).
Proof.
  intros Hnoarr. unfold field_eq, eq_match.
  destruct (lookup "_id" d) as [v|]; [|split; discriminate].
  destruct v; cbn; try (split; discriminate).
  - rewrite orb_false_r. split; intros H.
    + apply String.eqb_eq in H. now subst.
    + inversion H. apply String.eqb_refl.
  - exfalso. now apply (Hnoarr items).
Qed.

End Orders_update.

Section Catalogue.

Context {RT : Runtime}.
Variable SECRET : string.

(** ** Searching the catalogue *)

(** The five clauses of the search, on the document of a catalogue entry,
    test the five strings of [searched]. *)
Lemma search_clauses_on_service (m : string -> bool) (s : service) :
  any_clause
    [ (fun d => Ok (field_regex "title" m d));
      (fun d => Ok (field_regex "service_id" m d));
      (fun d => Ok (field_regex "price" m d));
      (fun d => Ok (field_regex "description" m d));
      expr_regex_match "_id" m ] (service_doc s)
  = Ok (existsb m (searched s)).
Proof.
  unfold searched, service_doc, field_regex, expr_regex_match.
  cbn.
  destruct (m (svc_title s)), (m (svc_service_id s)), (m (svc_price s)),
    (m (svc_description s)), (m (svc_id s)); reflexivity.
Qed.

Lemma select_services (m : string -> bool) (ss : list service) :
  select
    (any_clause
       [ (fun d => Ok (field_regex "title" m d));
         (fun d => Ok (field_regex "service_id" m d));
         (fun d => Ok (field_regex "price" m d));
         (fun d => Ok (field_regex "description" m d));
         expr_regex_match "_id" m ]) (map service_doc ss)
  = Ok (map service_doc (filter (fun s => existsb m (searched s)) ss)).
Proof.
  induction ss as [|s ss IH]; [reflexivity|].
  cbn [map select filter]. rewrite search_clauses_on_service, IH.
  destruct (existsb m (searched s)); reflexivity.
Qed.

(** The answer to a search for a string that the engine accepts as a
    pattern: the entries with a searched string that the pattern matches. *)
Lemma get_services_result
  (req : request) (st : state) (term : string) (m : string -> bool) :
  req_method req = GET ->
  path req = ["services"] ->
  js_or (lookup "search" (query req)) (VStr "") = VStr term ->
  regex_compile term "i" = Some m ->
  exists st',
    dispatch SECRET req st = (Ok tt, st')
    /\ res_body (res st')
       = Some (VArr (map VObj (map service_doc
            (filter (fun s => existsb m (searched s)) (services st)))))
    /\ res_status (res st') = res_status (res st)
    /\ services st' = services st.
Proof.
  intros Hm Hp Hterm Hcompile.
  unfold dispatch. rewrite Hm, Hp. cbn [route_of].
  unfold get_services, find. rewrite Hterm. unfold_monad.
  cbn [search_filter compile_filter compile_clauses compile_clause compile_regex].
  rewrite Hcompile. cbn [documents services].
  rewrite select_services.
  eexists. split; [reflexivity|]. cbn. repeat split; reflexivity.
Qed.

(** C5. On GET /services, with the [search] parameter absent or empty the
    answer is the whole catalogue, in the order of the collection (the empty
    pattern is one the engine accepts and finds in every string); with a
    search term that the engine accepts and finds in none of the searched
    strings (title, service_id, price, description, [_id] in hexadecimal) of
    any entry, the answer is the empty array. *)
Theorem services_search (req : request) (st : state) :
  req_method req = GET ->
  path req = ["services"] ->
  (forall m,
     lookup "search" (query req) = None
     \/ lookup "search" (query req) = Some (VStr "") ->
     regex_compile "" "i" = Some m ->
     (forall s, m s = true) ->
     exists st',
       dispatch SECRET req st = (Ok tt, st')
       /\ res_body (res st')
          = Some (VArr (map VObj (map service_doc (services st))))
       /\ res_status (res st') = res_status (res st))
  /\ (forall term m,
        lookup "search" (query req) = Some (VStr term) ->
        regex_compile term "i" = Some m ->
        (forall s, In s (services st) ->
           forall str, In str (searched s) -> m str = false) ->
        exists st',
          dispatch SECRET req st = (Ok tt, st')
          /\ res_body (res st') = Some (VArr [])
          /\ res_status (res st') = res_status (res st)).
Proof.
  intros Hm Hp. split.
  - intros m Hsearch Hcompile Hall.
    assert (Hterm : js_or (lookup "search" (query req)) (VStr "") = VStr "")
      by (destruct Hsearch as [-> | ->]; reflexivity).
    destruct (get_services_result req st Hm Hp Hterm Hcompile)
      as (st' & Hrun & Hbody & Hstatus & _).
    exists st'. repeat split; try assumption.
    rewrite Hbody. do 4 f_equal.
    apply forallb_filter_id. apply forallb_forall. intros s _.
    unfold searched. cbn. now rewrite Hall.
  - intros term m Hsearch Hcompile Hnone.
    assert (Hterm : js_or (lookup "search" (query req)) (VStr "") = VStr term).
    { rewrite Hsearch. unfold js_or. cbn [truthy].
      destruct (String.eqb term "") eqn:E;
        [apply String.eqb_eq in E; now subst | reflexivity]. }
    destruct (get_services_result req st Hm Hp Hterm Hcompile)
      as (st' & Hrun & Hbody & Hstatus & _).
    exists st'. repeat split; try assumption.
    rewrite Hbody. do 2 f_equal.
    assert (Hnil : forall ss,
               (forall s, In s ss -> existsb m (searched s) = false) ->
               filter (fun s => existsb m (searched s)) ss = []).
    { induction ss as [|s ss IH]; intros Hss; [reflexivity|].
      cbn [filter]. rewrite (Hss s (or_introl eq_refl)).
      apply IH. intros s' Hin. apply Hss. now right. }
    rewrite Hnil; [reflexivity|].
    intros s Hin. destruct (existsb m (searched s)) eqn:E; [|reflexivity].
    apply existsb_exists in E. destruct E as (str & Hstr & Hmatch).
    rewrite (Hnone s Hin str Hstr) in Hmatch. discriminate.
Qed.

End Catalogue.

(** ** The catalogue is read-only *)

Lemma keeps_ret {A} (a : A) : keeps_services (ret a).
Proof.
  intros st. split; [reflexivity|]. exists []. cbn. now rewrite app_nil_r.
Qed.

Lemma keeps_throw {A} (e : error) : keeps_services (@throw A e).
Proof.
  intros st. split; [reflexivity|]. exists []. cbn. now rewrite app_nil_r.
Qed.

Lemma keeps_lift {A} (r : result A) : keeps_services (lift r).
Proof.
  intros st. split; [reflexivity|]. exists []. cbn. now rewrite app_nil_r.
Qed.

Lemma keeps_gets {A} (f : state -> A) : keeps_services (gets f).
Proof.
  intros st. split; [reflexivity|]. exists []. cbn. now rewrite app_nil_r.
Qed.

Lemma keeps_modify (f : state -> state) :
  (forall st, services (f st) = services st /\ trace (f st) = trace st) ->
  keeps_services (modify f).
Proof.
  intros Hf st. destruct (Hf st) as [Hs Ht]. cbn. split; [assumption|].
  exists []. now rewrite app_nil_r.
Qed.

Lemma keeps_log (ev : event) :
  reads_services_only ev = true -> keeps_services (log ev).
Proof.
  intros Hev st. cbn. split; [reflexivity|].
  exists [ev]. cbn. now rewrite Hev.
Qed.

Lemma keeps_bind {A B} (m : M A) (k : A -> M B) :
  keeps_services m -> (forall a, keeps_services (k a)) ->
  keeps_services (bind m k).
Proof.
  intros Hm Hk st. unfold bind, final.
  specialize (Hm st). unfold final in Hm.
  destruct (m st) as [[a|e] st1]; cbn in Hm; [|exact Hm].
  destruct Hm as (Hs1 & evs1 & Ht1 & Hok1).
  specialize (Hk a st1). unfold final in Hk.
  destruct (k a st1) as [r st2]; cbn in *.
  destruct Hk as (Hs2 & evs2 & Ht2 & Hok2).
  split; [congruence|].
  exists (evs1 ++ evs2)%list. split.
  - rewrite Ht2, Ht1. now rewrite app_assoc.
  - rewrite forallb_app, Hok1, Hok2. reflexivity.
Qed.

Lemma keeps_try_catch {A} (m : M A) (h : error -> M A) :
  keeps_services m -> (forall e, keeps_services (h e)) ->
  keeps_services (try_catch m h).
Proof.
  intros Hm Hh st. unfold try_catch, final.
  specialize (Hm st). unfold final in Hm.
  destruct (m st) as [[a|e] st1]; cbn in Hm; [exact Hm|].
  destruct Hm as (Hs1 & evs1 & Ht1 & Hok1).
  specialize (Hh e st1). unfold final in Hh.
  destruct (h e st1) as [r st2]; cbn in *.
  destruct Hh as (Hs2 & evs2 & Ht2 & Hok2).
  split; [congruence|].
  exists (evs1 ++ evs2)%list. split.
  - rewrite Ht2, Ht1. now rewrite app_assoc.
  - rewrite forallb_app, Hok1, Hok2. reflexivity.
Qed.

Ltac keeps_step :=
  match goal with
  | |- keeps_services (bind _ _) => apply keeps_bind; [|intros ?]
  | |- keeps_services (try_catch _ _) => apply keeps_try_catch; [|intros ?]
  | |- keeps_services (ret _) => apply keeps_ret
  | |- keeps_services (throw _) => apply keeps_throw
  | |- keeps_services (lift _) => apply keeps_lift
  | |- keeps_services (gets _) => apply keeps_gets
  | |- keeps_services (log _) => apply keeps_log; reflexivity
  | |- keeps_services (modify _) =>
      apply keeps_modify; intros ?; split; reflexivity
  | |- keeps_services (if ?b then _ else _) => destruct b
  | |- keeps_services (match ?x with _ => _ end) => destruct x
  end.

Ltac keeps :=
  unfold clearCookie; unfold status, send, set_cookie; repeat keeps_step.

Section ReadOnly.

Context {RT : Runtime}.
Variable SECRET : string.

Lemma keeps_find (c : coll) (q : filter_doc) : keeps_services (find c q).
Proof. unfold find. destruct c; keeps. Qed.

Lemma keeps_findOne (c : coll) (q : filter_doc) (fs : list string) :
  keeps_services (findOne c q fs).
Proof. unfold findOne. destruct c; keeps. Qed.

Lemma keeps_insertOne_orders (d : document) :
  keeps_services (insertOne_orders d).
Proof. unfold insertOne_orders. keeps. Qed.

Lemma keeps_updateOne_orders (q : filter_doc) (u : update_doc) :
  keeps_services (updateOne_orders q u).
Proof. unfold updateOne_orders. keeps. Qed.

Lemma keeps_deleteOne_orders (q : filter_doc) :
  keeps_services (deleteOne_orders q).
Proof. unfold deleteOne_orders. keeps. Qed.

Lemma keeps_verifyJWT (req : request) (next : request -> M unit) :
  (forall r, keeps_services (next r)) ->
  keeps_services (verifyJWT SECRET req next).
Proof.
  intros Hnext. unfold verifyJWT, verify. keeps. apply Hnext.
Qed.

Lemma keeps_get_orders (req : request) : keeps_services (get_orders req).
Proof.
  unfold get_orders, decoded_email. keeps. apply keeps_find.
Qed.

(** C7. Whatever the request, the catalogue after the handler has run is the
    catalogue before, and the database calls the handler has made on
    [serviceCollection] are [find] and [findOne] only. *)
Theorem services_never_mutated (req : request) (st : state) :
  services (final (dispatch SECRET req st)) = services st
  /\ exists evs,
       trace (final (dispatch SECRET req st)) = (trace st ++ evs)%list
       /\ forallb reads_services_only evs = true.
Proof.
  revert st. change (keeps_services (dispatch SECRET req)).
  unfold dispatch.
  destruct (route_of (req_method req) (path req)).
  - unfold post_jwt, sign. keeps.
  - unfold post_logout. keeps.
  - unfold get_services. keeps. apply keeps_find.
  - unfold get_service_by_id, new_ObjectId. keeps. apply keeps_findOne.
  - unfold post_orders. keeps. apply keeps_insertOne_orders.
  - apply keeps_verifyJWT. apply keeps_get_orders.
  - unfold patch_order, new_ObjectId. keeps. apply keeps_updateOne_orders.
  - unfold delete_order, new_ObjectId. keeps. apply keeps_deleteOne_orders.
  - unfold get_root. keeps.
  - keeps.
Qed.

End ReadOnly.

(** * Further properties of the handlers *)

(** ** Equality of values *)

Lemma value_eqb_refl : forall a, value_eqb a a = true.
Proof.
  fix IH 1. intros a. destruct a; cbn.
  - reflexivity.
  - apply Bool.eqb_reflx.
  - apply Z.eqb_refl.
  - apply String.eqb_refl.
  - apply String.eqb_refl.
  - induction items as [|x xs IHxs]; [reflexivity|].
    rewrite IH. exact IHxs.
  - induction fields as [|[k x] xs IHxs]; [reflexivity|].
    rewrite String.eqb_refl, IH. exact IHxs.
Qed.

Lemma value_eqb_eq : forall a b, value_eqb a b = true -> a = b.
Proof.
  fix IH 1. intros a b. destruct a, b; cbn; try discriminate; intros H.
  - reflexivity.
  - apply Bool.eqb_prop in H. now subst.
  - apply Z.eqb_eq in H. now subst.
  - apply String.eqb_eq in H. now subst.
  - apply String.eqb_eq in H. now subst.
  - f_equal. revert items0 H.
    induction items as [|x xs IHxs]; intros [|y ys] H; try discriminate.
    + reflexivity.
    + apply andb_true_iff in H. destruct H as [Hx Hxs].
      apply IH in Hx. subst y. f_equal. now apply IHxs.
  - f_equal. revert fields0 H.
    induction fields as [|[k x] xs IHxs]; intros [|[k' y] ys] H;
      try discriminate.
    + reflexivity.
    + apply andb_true_iff in H. destruct H as [Hkx Hxs].
      apply andb_true_iff in Hkx. destruct Hkx as [Hk Hx].
      apply String.eqb_eq in Hk. apply IH in Hx. subst.
      f_equal. now apply IHxs.
Qed.

Lemma value_eqb_sym (a b : value) : value_eqb a b = value_eqb b a.
Proof.
  destruct (value_eqb a b) eqn:Eab.
  - apply value_eqb_eq in Eab. subst. symmetry. apply value_eqb_refl.
  - destruct (value_eqb b a) eqn:Eba; [|reflexivity].
    apply value_eqb_eq in Eba. subst. now rewrite value_eqb_refl in Eab.
Qed.

(** ** What a handler leaves alone *)

Lemma preserves_ret {X A} (proj : state -> X) (a : A) : preserves proj (ret a).
Proof. intros st. reflexivity. Qed.

Lemma preserves_throw {X A} (proj : state -> X) (e : error) :
  preserves proj (@throw A e).
Proof. intros st. reflexivity. Qed.

Lemma preserves_lift {X A} (proj : state -> X) (r : result A) :
  preserves proj (lift r).
Proof. intros st. reflexivity. Qed.

Lemma preserves_gets {X A} (proj : state -> X) (f : state -> A) :
  preserves proj (gets f).
Proof. intros st. reflexivity. Qed.

Lemma preserves_modify {X} (proj : state -> X) (f : state -> state) :
  (forall st, proj (f st) = proj st) -> preserves proj (modify f).
Proof. intros Hf st. apply Hf. Qed.

Lemma preserves_bind {X A B} (proj : state -> X) (m : M A) (k : A -> M B) :
  preserves proj m -> (forall a, preserves proj (k a)) ->
  preserves proj (bind m k).
Proof.
  intros Hm Hk st. unfold bind, final.
  specialize (Hm st). unfold final in Hm.
  destruct (m st) as [[a|e] st1]; cbn in *; [|exact Hm].
  specialize (Hk a st1). unfold final in Hk.
  destruct (k a st1) as [r st2]; cbn in *. congruence.
Qed.

Lemma preserves_try_catch {X A} (proj : state -> X) (m : M A)
  (h : error -> M A) :
  preserves proj m -> (forall e, preserves proj (h e)) ->
  preserves proj (try_catch m h).
Proof.
  intros Hm Hh st. unfold try_catch, final.
  specialize (Hm st). unfold final in Hm.
  destruct (m st) as [[a|e] st1]; cbn in *; [exact Hm|].
  specialize (Hh e st1). unfold final in Hh.
  destruct (h e st1) as [r st2]; cbn in *. congruence.
Qed.

Ltac preserves_step :=
  match goal with
  | |- preserves _ (bind _ _) => apply preserves_bind; [|intros ?]
  | |- preserves _ (try_catch _ _) => apply preserves_try_catch; [|intros ?]
  | |- preserves _ (ret _) => apply preserves_ret
  | |- preserves _ (throw _) => apply preserves_throw
  | |- preserves _ (lift _) => apply preserves_lift
  | |- preserves _ (gets _) => apply preserves_gets
  | |- preserves _ (modify _) =>
      apply preserves_modify; intros ?; reflexivity
  | |- preserves _ (if ?b then _ else _) => destruct b
  | |- preserves _ (match ?x with _ => _ end) => destruct x
  end.

Ltac preserves_tac :=
  unfold clearCookie; unfold log, status, send, set_cookie;
  repeat preserves_step.

Section Frame.

Context {RT : Runtime}.
Variable SECRET : string.

Lemma find_preserves_orders (c : coll) (q : filter_doc) :
  preserves orders (find c q).
Proof. unfold find. preserves_tac. Qed.


Lemma findOne_preserves_orders (c : coll) (q : filter_doc) (fs : list string) :
  preserves orders (findOne c q fs).
Proof. unfold findOne. preserves_tac. Qed.





Lemma other_routes_preserve_orders (req : request) (st : state) :
  writes_orders (route_of (req_method req) (path req)) = false ->
  orders (final (dispatch SECRET req st)) = orders st.
Proof.
  intros Hroute. revert st.
  change (preserves orders (dispatch SECRET req)).
  unfold dispatch.
  destruct (route_of (req_method req) (path req)); try discriminate.
  - unfold post_jwt, sign. preserves_tac.
  - unfold post_logout. preserves_tac.
  - unfold get_services. preserves_tac. apply find_preserves_orders.
  - unfold get_service_by_id, new_ObjectId. preserves_tac.
    apply findOne_preserves_orders.
  - unfold verifyJWT, verify, get_orders, decoded_email. preserves_tac.
    apply find_preserves_orders.
  - unfold get_root. preserves_tac.
  - preserves_tac.
Qed.



End Frame.

(** ** Writing to the orders *)

Lemma set_field_idempotent (k : string) (v : value) (d : document) :
  set_field k v (set_field k v d) = set_field k v d.
Proof.
  induction d as [|[k' v'] d IH]; cbn.
  - now rewrite String.eqb_refl.
  - destruct (String.eqb k k') eqn:E; cbn; rewrite E; [reflexivity|].
    now rewrite IH.
Qed.

Lemma split_first_update (sel : document -> bool) (f : document -> document)
  (ds : list document) :
  match split_first (fun x => Ok (sel x)) ds with
  | Ok (Some (pre, d, post)) => (pre ++ f d :: post)%list = update_first sel f ds
  | Ok None => ds = update_first sel f ds
  | Throw _ => False
  end.
Proof.
  induction ds as [|x ds IH]; cbn; [reflexivity|].
  destruct (sel x); [reflexivity|].
  destruct (split_first (fun x => Ok (sel x)) ds) as [[[[pre d] post]|]|];
    cbn; try contradiction; now f_equal.
Qed.

Lemma split_first_remove (sel : document -> bool) (ds : list document) :
  match split_first (fun x => Ok (sel x)) ds with
  | Ok (Some (pre, d, post)) => (pre ++ post)%list = remove_first sel ds
  | Ok None => ds = remove_first sel ds
  | Throw _ => False
  end.
Proof.
  induction ds as [|x ds IH]; cbn; [reflexivity|].
  destruct (sel x); [reflexivity|].
  destruct (split_first (fun x => Ok (sel x)) ds) as [[[[pre d] post]|]|];
    cbn; try contradiction; now f_equal.
Qed.

Section Writes.

Context {RT : Runtime}.
Variable SECRET : string.

(** The orders after the handler of PATCH /orders/:id, for an identifier
    that parses. *)
Lemma patch_order_run (req : request) (st : state) (hex : string) :
  ObjectId_parse (params_id req) = Some hex ->
  exists st',
    patch_order req st = (Ok tt, st')
    /\ orders st'
       = update_first (field_eq "_id" (VOid hex))
           (set_field "status" (bson (lookup "status" (body req))))
           (orders st)
    /\ services st' = services st
    /\ res_status (res st') = res_status (res st).
Proof.
  intros Hid.
  unfold patch_order, new_ObjectId, updateOne_orders. rewrite Hid.
  unfold_monad. cbn [compile_filter compile_clause orders].
  pose proof (split_first_update (field_eq "_id" (VOid hex))
                (set_field "status" (bson (lookup "status" (body req))))
                (orders st)) as Hsplit.
  destruct (split_first _ (orders st)) as [[[[pre d] post]|]|];
    [| |contradiction].
  - eexists. split; [reflexivity|]. cbn. repeat split. exact Hsplit.
  - eexists. split; [reflexivity|]. cbn. repeat split. exact Hsplit.
Qed.

Lemma existsb_none (sel : document -> bool) (ds : list document) :
  forallb (fun x => negb (sel x)) ds = true -> existsb sel ds = false.
Proof.
  induction ds as [|x xs IH]; cbn; [reflexivity|].
  intros H. apply andb_true_iff in H. destruct H as [Hx Hxs].
  apply negb_true_iff in Hx. rewrite Hx. now apply IH.
Qed.

(** The orders after the handler of DELETE /orders/:id, for an identifier
    that parses, and the count that the answer reports. *)
Lemma delete_order_run (req : request) (st : state) (hex : string) :
  ObjectId_parse (params_id req) = Some hex ->
  exists st',
    delete_order req st = (Ok tt, st')
    /\ orders st' = remove_first (field_eq "_id" (VOid hex)) (orders st)
    /\ res_body (res st')
       = Some (VObj [("acknowledged", VBool true);
                     ("deletedCount",
                       VNum (if existsb (field_eq "_id" (VOid hex)) (orders st)
                             then 1 else 0))])
    /\ res_status (res st') = res_status (res st)
    /\ services st' = services st.
Proof.
  intros Hid.
  unfold delete_order, new_ObjectId, deleteOne_orders. rewrite Hid.
  unfold_monad. cbn [compile_filter compile_clause orders].
  set (sel := field_eq "_id" (VOid hex)).
  pose proof (split_first_remove sel (orders st)) as Hsplit.
  destruct (split_first_total_ok sel (orders st)) as [r Hr].
  rewrite Hr in *. destruct r as [[[pre d] post]|].
  - apply split_first_total_some in Hr. destruct Hr as (Hds & Hd & _).
    assert (Hex : existsb sel (orders st) = true).
    { rewrite Hds, existsb_app. cbn. rewrite Hd. apply orb_true_r. }
    rewrite Hex. eexists. split; [reflexivity|]. cbn.
    repeat split. exact Hsplit.
  - apply split_first_total_none in Hr.
    rewrite (existsb_none _ _ Hr).
    eexists. split; [reflexivity|]. cbn.
    repeat split. exact Hsplit.
Qed.

(** The orders after the handler of POST /orders, and the answer. *)
Lemma post_orders_run (req : request) (st : state) :
  let id := assigned_id (inserted st) (body req) in
  exists st',
    post_orders req st = (Ok tt, st')
    /\ services st' = services st
    /\ clock st' = clock st
    /\ if acceptable id (orders st)
       then orders st' = (orders st ++ [stored id (body req)])%list
            /\ res_body (res st')
               = Some (VObj [("acknowledged", VBool true); ("insertedId", id)])
            /\ res_status (res st') = res_status (res st)
       else orders st' = orders st
            /\ res_body (res st')
               = Some (error_message "Failed to create order")
            /\ res_status (res st') = 500.
Proof.
  intros id.
  unfold post_orders, insertOne_orders. subst id. unfold assigned_id.
  destruct (lookup "_id" (body req)) as [v|] eqn:Hid.
  - destruct v; unfold_monad; cbn;
      try (destruct (existsb _ (orders st)); cbn;
           eexists; (split; [reflexivity|]); cbn; repeat split; reflexivity).
    eexists. split; [reflexivity|]. cbn. repeat split; reflexivity.
  - unfold_monad. cbn.
    destruct (existsb _ (orders st)); cbn;
      eexists; (split; [reflexivity|]); cbn; repeat split; reflexivity.
Qed.

End Writes.

(** ** Identifiers of the stored orders *)

Lemma lookup_stored_id (id : value) (d : document) :
  lookup "_id" (stored id d) = Some id.
Proof. reflexivity. Qed.

Lemma lookup_stored_other (id : value) (d : document) (k : string) :
  k <> "_id" -> lookup k (stored id d) = lookup k d.
Proof.
  intros Hk. unfold stored. cbn [lookup].
  apply String.eqb_neq in Hk. rewrite Hk.
  induction d as [|[k' v] d IH]; [reflexivity|].
  cbn. destruct (String.eqb k' "_id") eqn:E; cbn.
  - apply String.eqb_eq in E. subst k'. now rewrite Hk.
  - rewrite IH. reflexivity.
Qed.

Lemma has_id_set_status (x v : value) (d : document) :
  has_id x (set_field "status" v d) = has_id x d.
Proof.
  unfold has_id. now rewrite lookup_set_field_other by discriminate.
Qed.

Lemma identified_set_status (v : value) (d : document) :
  identified (set_field "status" v d) = identified d.
Proof.
  unfold identified. now rewrite lookup_set_field_other by discriminate.
Qed.

(** On an identified document the filter [{ _id: id }] is the test of its
    identifier. *)
Lemma selected_is_has_id (hex : string) (d : document) :
  identified d = true ->
  field_eq "_id" (VOid hex) d = has_id (VOid hex) d.
Proof.
  unfold identified, field_eq, has_id, eq_match.
  destruct (lookup "_id" d) as [v|]; [|discriminate].
  destruct v; intros H; try discriminate; cbn; try reflexivity.
  rewrite orb_false_r. apply String.eqb_sym.
Qed.

Lemma existsb_has_id_update_first (x : value) (sel : document -> bool)
  (v : value) (ds : list document) :
  existsb (has_id x) (update_first sel (set_field "status" v) ds)
  = existsb (has_id x) ds.
Proof.
  induction ds as [|d ds IH]; [reflexivity|].
  cbn. destruct (sel d); cbn.
  - now rewrite has_id_set_status.
  - now rewrite IH.
Qed.

Lemma well_kept_update_first (sel : document -> bool) (v : value)
  (ds : list document) :
  well_kept ds = true ->
  well_kept (update_first sel (set_field "status" v) ds) = true.
Proof.
  unfold well_kept. intros H. apply andb_true_iff in H. destruct H as [Hi Hu].
  apply andb_true_iff. split.
  - clear Hu. induction ds as [|d ds IH]; [reflexivity|].
    cbn in *. apply andb_true_iff in Hi. destruct Hi as [Hd Hds].
    destruct (sel d); cbn.
    + now rewrite identified_set_status, Hd.
    + rewrite Hd. now apply IH.
  - clear Hi. induction ds as [|d ds IH]; [reflexivity|].
    cbn in *. apply andb_true_iff in Hu. destruct Hu as [Hd Hds].
    destruct (sel d); cbn.
    + rewrite lookup_set_field_other by discriminate. now rewrite Hd.
    + rewrite existsb_has_id_update_first, Hd. now apply IH.
Qed.

Lemma existsb_remove_first (p sel : document -> bool) (ds : list document) :
  existsb p ds = false -> existsb p (remove_first sel ds) = false.
Proof.
  induction ds as [|d ds IH]; [reflexivity|].
  cbn. intros H. apply orb_false_iff in H. destruct H as [Hd Hds].
  destruct (sel d); [exact Hds|].
  cbn. rewrite Hd. now apply IH.
Qed.

Lemma well_kept_remove_first (sel : document -> bool) (ds : list document) :
  well_kept ds = true -> well_kept (remove_first sel ds) = true.
Proof.
  unfold well_kept. intros H. apply andb_true_iff in H. destruct H as [Hi Hu].
  apply andb_true_iff. split.
  - clear Hu. induction ds as [|d ds IH]; [reflexivity|].
    cbn in *. apply andb_true_iff in Hi. destruct Hi as [Hd Hds].
    destruct (sel d); [exact Hds|]. cbn. rewrite Hd. now apply IH.
  - clear Hi. induction ds as [|d ds IH]; [reflexivity|].
    cbn in *. apply andb_true_iff in Hu. destruct Hu as [Hd Hds].
    destruct (sel d); [exact Hds|]. cbn.
    apply negb_true_iff in Hd.
    rewrite (existsb_remove_first _ sel ds Hd). cbn. now apply IH.
Qed.

Lemma well_kept_snoc (id : value) (d : document) (ds : list document) :
  well_kept ds = true ->
  acceptable id ds = true ->
  well_kept (ds ++ [stored id d]) = true.
Proof.
  unfold well_kept. intros H Hacc.
  apply andb_true_iff in H. destruct H as [Hi Hu].
  assert (Hnew : existsb (has_id id) ds = false
                 /\ identified (stored id d) = true).
  { unfold acceptable in Hacc. unfold identified.
    rewrite lookup_stored_id.
    destruct id; try discriminate;
      (split; [now apply negb_true_iff in Hacc | reflexivity]). }
  destruct Hnew as [Hfresh Hident].
  apply andb_true_iff. split.
  - rewrite forallb_app, Hi. cbn [forallb]. now rewrite Hident.
  - clear Hacc Hident. induction ds as [|x xs IH]; [reflexivity|].
    cbn in *. apply andb_true_iff in Hi. destruct Hi as [Hx Hxs].
    apply andb_true_iff in Hu. destruct Hu as [Hux Huxs].
    apply orb_false_iff in Hfresh. destruct Hfresh as [Hfx Hfxs].
    rewrite existsb_app. apply negb_true_iff in Hux. rewrite Hux. cbn.
    rewrite IH by assumption.
    unfold has_id in Hfx. unfold identified in Hx.
    destruct (lookup "_id" x) as [v|]; [|discriminate].
    cbn [bson]. rewrite value_eqb_sym, Hfx. reflexivity.
Qed.

Lemma update_first_idempotent (sel : document -> bool) (v : value)
  (ds : list document) :
  (forall d, sel (set_field "status" v d) = sel d) ->
  update_first sel (set_field "status" v)
    (update_first sel (set_field "status" v) ds)
  = update_first sel (set_field "status" v) ds.
Proof.
  intros Hsel. induction ds as [|d ds IH]; [reflexivity|].
  cbn. destruct (sel d) eqn:E; cbn.
  - now rewrite Hsel, E, set_field_idempotent.
  - now rewrite E, IH.
Qed.

Lemma email_matches_set_status (A : string) (v : value) (d : document) :
  email_matches A (set_field "status" v d) = email_matches A d.
Proof.
  unfold email_matches. now rewrite lookup_set_field_other by discriminate.
Qed.

Lemma listed_ids_update_first (A : string) (sel : document -> bool)
  (v : value) (ds : list document) :
  listed_ids A (update_first sel (set_field "status" v) ds) = listed_ids A ds.
Proof.
  unfold listed_ids. induction ds as [|d ds IH]; [reflexivity|].
  cbn. destruct (sel d); cbn.
  - rewrite email_matches_set_status.
    destruct (email_matches A d); cbn; [|reflexivity].
    now rewrite lookup_set_field_other by discriminate.
  - destruct (email_matches A d); cbn; now rewrite IH.
Qed.

Lemma existsb_agree (p q : document -> bool) (ds : list document) :
  (forall x, In x ds -> p x = q x) -> existsb p ds = existsb q ds.
Proof.
  induction ds as [|d ds IH]; [reflexivity|].
  intros H. cbn. rewrite (H d) by now left.
  rewrite IH by (intros; apply H; now right). reflexivity.
Qed.

Lemma removed_id_is_gone (hex : string) (ds : list document) :
  well_kept ds = true ->
  existsb (field_eq "_id" (VOid hex))
    (remove_first (field_eq "_id" (VOid hex)) ds) = false.
Proof.
  unfold well_kept. intros H. apply andb_true_iff in H. destruct H as [Hi Hu].
  induction ds as [|d ds IH]; [reflexivity|].
  cbn in *. apply andb_true_iff in Hi. destruct Hi as [Hd Hds].
  apply andb_true_iff in Hu. destruct Hu as [Hud Huds].
  destruct (field_eq "_id" (VOid hex) d) eqn:Esel.
  - rewrite selected_is_has_id in Esel by assumption.
    unfold has_id in Esel.
    destruct (lookup "_id" d) as [v|]; [|discriminate].
    apply value_eqb_eq in Esel. subst v. cbn in Hud.
    apply negb_true_iff in Hud.
    rewrite (existsb_agree (field_eq "_id" (VOid hex)) (has_id (VOid hex)));
      [exact Hud|].
    intros x Hx. apply selected_is_has_id.
    rewrite forallb_forall in Hds. now apply Hds.
  - cbn. rewrite Esel. now apply IH.
Qed.

Section OrderWrites.

Context {RT : Runtime}.
Variable SECRET : string.

(** X3. Every request keeps the orders well kept: if each order carries an
    identifier that is not an array and no two orders carry the same one,
    the same holds after the request, whichever route it takes and whether
    it is answered or throws. *)
Theorem orders_stay_well_kept (req : request) (st : state) :
  well_kept (orders st) = true ->
  well_kept (orders (final (dispatch SECRET req st))) = true.
Proof.
  intros Hok.
  destruct (writes_orders (route_of (req_method req) (path req))) eqn:Hw.
  2:{ now rewrite other_routes_preserve_orders. }
  unfold dispatch.
  destruct (route_of (req_method req) (path req)); try discriminate.
  - pose proof (post_orders_run req st) as Hrun. cbv zeta in Hrun.
    destruct Hrun as (st' & -> & _ & _ & Hcase). cbn [final snd].
    destruct (acceptable _ (orders st)) eqn:Hacc.
    + destruct Hcase as (Ho & _). rewrite Ho. now apply well_kept_snoc.
    + destruct Hcase as (Ho & _). rewrite Ho. exact Hok.
  - destruct (ObjectId_parse id) as [hex|] eqn:Hid.
    + destruct (patch_order_run (with_id id req) st Hid)
        as (st' & -> & Ho & _). cbn [final snd]. rewrite Ho.
      now apply well_kept_update_first.
    + unfold patch_order, new_ObjectId. cbn [with_id params_id].
      rewrite Hid. exact Hok.
  - destruct (ObjectId_parse id) as [hex|] eqn:Hid.
    + destruct (delete_order_run (with_id id req) st Hid)
        as (st' & -> & Ho & _). cbn [final snd]. rewrite Ho.
      now apply well_kept_remove_first.
    + unfold delete_order, new_ObjectId. cbn [with_id params_id].
      rewrite Hid. exact Hok.
Qed.

(** X4. POST /orders always answers.  The document is stored under its own
    identifier, or under a generated one when it has none, after the orders
    already there and with every field as the client sent it; the answer
    acknowledges the identifier.  When the identifier is an array or is
    already in the collection, nothing is stored and the answer is 500 with
    the error body. *)
Theorem post_orders_stores_document (req : request) (st : state) :
  req_method req = POST ->
  path req = ["orders"] ->
  let id := assigned_id (inserted st) (body req) in
  exists st',
    dispatch SECRET req st = (Ok tt, st')
    /\ if acceptable id (orders st)
       then orders st' = (orders st ++ [stored id (body req)])%list
            /\ res_body (res st')
               = Some (VObj [("acknowledged", VBool true); ("insertedId", id)])
            /\ res_status (res st') = res_status (res st)
            /\ lookup "_id" (stored id (body req)) = Some id
            /\ (forall k, k <> "_id" ->
                  lookup k (stored id (body req)) = lookup k (body req))
       else orders st' = orders st
            /\ res_body (res st')
               = Some (error_message "Failed to create order")
            /\ res_status (res st') = 500.
Proof.
  intros Hm Hp id.
  unfold dispatch. rewrite Hm, Hp. cbn [route_of].
  pose proof (post_orders_run req st) as Hrun. cbv zeta in Hrun.
  destruct Hrun as (st' & Hrun & _ & _ & Hcase).
  exists st'. split; [exact Hrun|]. subst id.
  destruct (acceptable _ (orders st)).
  - destruct Hcase as (Ho & Hb & Hs). repeat split; try assumption.
    intros k Hk. now apply lookup_stored_other.
  - exact Hcase.
Qed.

(** X5. DELETE /orders/:id with a well-formed identifier removes the first
    order that the filter [{ _id: id }] selects and reports one deletion;
    the orders before and after it keep their place.  When no order is
    selected, the collection is unchanged and the answer reports none. *)
Theorem delete_order_removes_first_match
  (req : request) (st : state) (id hex : string) :
  req_method req = DELETE ->
  path req = ["orders"; id] ->
  ObjectId_parse id = Some hex ->
  let selected := field_eq "_id" (VOid hex) in
  exists st',
    dispatch SECRET req st = (Ok tt, st')
    /\ services st' = services st
    /\ ((forallb (fun d => negb (selected d)) (orders st) = true
         /\ orders st' = orders st
         /\ res_body (res st')
            = Some (VObj [("acknowledged", VBool true);
                          ("deletedCount", VNum 0)]))
        \/ exists pre d post,
             orders st = (pre ++ d :: post)%list
             /\ forallb (fun x => negb (selected x)) pre = true
             /\ selected d = true
             /\ orders st' = (pre ++ post)%list
             /\ res_body (res st')
                = Some (VObj [("acknowledged", VBool true);
                              ("deletedCount", VNum 1)])).
Proof.
  intros Hm Hp Hid selected.
  unfold dispatch. rewrite Hm, Hp. cbn [route_of].
  unfold delete_order, new_ObjectId, deleteOne_orders.
  cbn [with_id params_id]. rewrite Hid.
  unfold_monad. cbn [compile_filter compile_clause orders].
  fold selected.
  destruct (split_first_total_ok selected (orders st)) as [r Hr].
  rewrite Hr. destruct r as [[[pre d] post]|].
  - apply split_first_total_some in Hr. destruct Hr as (Hsplit & Hd & Hpre).
    eexists. split; [reflexivity|]. cbn. split; [reflexivity|].
    right. exists pre, d, post. repeat split; assumption.
  - apply split_first_total_none in Hr.
    eexists. split; [reflexivity|]. cbn. split; [reflexivity|].
    left. repeat split. assumption.
Qed.

(** X6. On well-kept orders, DELETE /orders/:id leaves no order with that
    identifier: the filter selects nothing afterwards, and the same request
    served again changes nothing and reports no deletion. *)
Theorem deleted_order_is_gone (req : request) (st : state) (id hex : string) :
  req_method req = DELETE ->
  path req = ["orders"; id] ->
  ObjectId_parse id = Some hex ->
  well_kept (orders st) = true ->
  let st1 := final (dispatch SECRET req st) in
  let st2 := final (dispatch SECRET req (next_turn st1)) in
  existsb (field_eq "_id" (VOid hex)) (orders st1) = false
  /\ orders st2 = orders st1
  /\ res_body (res st2)
     = Some (VObj [("acknowledged", VBool true); ("deletedCount", VNum 0)]).
Proof.
  intros Hm Hp Hid Hok st1 st2. subst st2 st1.
  unfold dispatch. rewrite Hm, Hp. cbn [route_of].
  assert (Hid' : ObjectId_parse (params_id (with_id id req)) = Some hex)
    by exact Hid.
  destruct (delete_order_run (with_id id req) st Hid')
    as (st1 & -> & Ho1 & _). cbn [final snd].
  assert (Hgone : existsb (field_eq "_id" (VOid hex)) (orders st1) = false)
    by (rewrite Ho1; now apply removed_id_is_gone).
  destruct (delete_order_run (with_id id req) (next_turn st1) Hid')
    as (st2 & -> & Ho2 & Hb2 & _). cbn [final snd].
  cbn [next_turn with_res orders] in Ho2, Hb2.
  rewrite Hgone in Hb2. split; [exact Hgone|]. split; [|exact Hb2].
  rewrite Ho2. clear Ho2 Hb2 Ho1.
  induction (orders st1) as [|x xs IH]; [reflexivity|].
  cbn in *. apply orb_false_iff in Hgone. destruct Hgone as [Hx Hxs].
  rewrite Hx. now rewrite IH.
Qed.

(** X7. PATCH /orders/:id is idempotent: served a second time, the same
    request leaves the orders as the first left them. *)
Theorem patch_order_idempotent (req : request) (st : state) (id : string) :
  req_method req = PATCH ->
  path req = ["orders"; id] ->
  let st1 := final (dispatch SECRET req st) in
  orders (final (dispatch SECRET req (next_turn st1))) = orders st1.
Proof.
  intros Hm Hp st1. subst st1.
  unfold dispatch. rewrite Hm, Hp. cbn [route_of].
  destruct (ObjectId_parse id) as [hex|] eqn:Hid.
  - assert (Hid' : ObjectId_parse (params_id (with_id id req)) = Some hex)
      by exact Hid.
    destruct (patch_order_run (with_id id req) st Hid')
      as (st1 & -> & Ho1 & _). cbn [final snd].
    destruct (patch_order_run (with_id id req) (next_turn st1) Hid')
      as (st2 & -> & Ho2 & _). cbn [final snd].
    cbn [next_turn with_res orders] in Ho2.
    rewrite Ho2, Ho1. apply update_first_idempotent.
    intros d. unfold field_eq.
    now rewrite lookup_set_field_other by discriminate.
  - unfold patch_order, new_ObjectId. cbn [with_id params_id].
    rewrite Hid. reflexivity.
Qed.

(** X8. PATCH /orders/:id never moves an order from one customer's list to
    another's: for every email, the orders that GET /orders would list for
    it are the same documents, by identifier and in the same order, before
    and after the request. *)
Theorem patch_order_keeps_listings
  (req : request) (st : state) (id : string) (A : string) :
  req_method req = PATCH ->
  path req = ["orders"; id] ->
  listed_ids A (orders (final (dispatch SECRET req st)))
  = listed_ids A (orders st).
Proof.
  intros Hm Hp.
  unfold dispatch. rewrite Hm, Hp. cbn [route_of].
  destruct (ObjectId_parse id) as [hex|] eqn:Hid.
  - assert (Hid' : ObjectId_parse (params_id (with_id id req)) = Some hex)
      by exact Hid.
    destruct (patch_order_run (with_id id req) st Hid')
      as (st1 & -> & Ho & _). cbn [final snd]. rewrite Ho.
    apply listed_ids_update_first.
  - unfold patch_order, new_ObjectId. cbn [with_id params_id].
    rewrite Hid. reflexivity.
Qed.

End OrderWrites.

(** ** Listing after posting, logging out, fetching one service *)

Lemma lookup_project (k : string) (fs : list string) (d : document) :
  lookup k (project fs d)
  = if String.eqb k "_id" || existsb (String.eqb k) fs
    then lookup k d else None.
Proof.
  unfold project. induction d as [|[k' v] d IH]; cbn.
  - now destruct (String.eqb k "_id" || existsb (String.eqb k) fs).
  - destruct (String.eqb k k') eqn:E.
    + apply String.eqb_eq in E. subst k'.
      destruct (String.eqb k "_id" || existsb (String.eqb k) fs) eqn:Hin;
        cbn.
      * now rewrite String.eqb_refl.
      * exact IH.
    + destruct (String.eqb k' "_id" || existsb (String.eqb k') fs); cbn.
      * rewrite E. exact IH.
      * exact IH.
Qed.

Section Reads.

Context {RT : Runtime}.
Variable SECRET : string.

(** The guarded listing, when the guard and the handler let it through. *)
Lemma guarded_listing_run
  (req : request) (st : state) (t : string) (dec : value) (A : string) :
  lookup "access_token" (cookies req) = Some (VStr t) ->
  t <> "" ->
  jwt_verify t SECRET (clock st) = Some dec ->
  get_prop dec "email" = Ok (Some (VStr A)) ->
  lookup "email" (query req) = Some (VStr A) ->
  A <> "" ->
  exists st',
    verifyJWT SECRET req get_orders st = (Ok tt, st')
    /\ res_body (res st')
       = Some (VArr (map VObj (filter (email_matches A) (orders st))))
    /\ res_status (res st') = res_status (res st)
    /\ orders st' = orders st.
Proof.
  intros Hcookie Ht Hverify Hmine Hquery HA.
  unfold verifyJWT, verify. rewrite Hcookie.
  apply String.eqb_neq in Ht. apply String.eqb_neq in HA.
  cbn [truthy]. rewrite Ht. cbn [negb bson].
  unfold_monad. cbn. rewrite Hverify.
  unfold get_orders, decoded_email, find. cbn [with_decoded query decoded].
  rewrite Hquery. cbn [truthy]. rewrite HA. cbn [negb].
  unfold_monad. rewrite Hmine. cbn [strict_eq].
  rewrite String.eqb_refl. cbn [negb bson compile_filter compile_clause].
  cbn [documents orders].
  rewrite select_total.
  rewrite (filter_ext _ _ (field_eq_email A)).
  eexists. split; [reflexivity|]. cbn. repeat split; reflexivity.
Qed.

(** X9. An order that POST /orders has stored with the email [A] is listed
    by a later GET /orders made with a credential for [A]: the answer is the
    orders listed for [A] before the post, followed by the stored
    document. *)
Theorem posted_order_is_listed
  (post get : request) (st st2 : state) (t : string) (dec : value)
  (A : string) :
  req_method post = POST ->
  path post = ["orders"] ->
  lookup "email" (body post) = Some (VStr A) ->
  acceptable (assigned_id (inserted st) (body post)) (orders st) = true ->
  orders st2 = orders (final (dispatch SECRET post st)) ->
  req_method get = GET ->
  path get = ["orders"] ->
  lookup "access_token" (cookies get) = Some (VStr t) ->
  t <> "" ->
  jwt_verify t SECRET (clock st2) = Some dec ->
  get_prop dec "email" = Ok (Some (VStr A)) ->
  lookup "email" (query get) = Some (VStr A) ->
  A <> "" ->
  exists st',
    dispatch SECRET get st2 = (Ok tt, st')
    /\ res_body (res st')
       = Some (VArr (map VObj
           (filter (email_matches A) (orders st)
            ++ [stored (assigned_id (inserted st) (body post)) (body post)]))).
Proof.
  intros Hpm Hpp Hemail Hacc Hst2 Hgm Hgp Hcookie Ht Hverify Hmine Hquery HA.
  assert (Horders : orders st2
            = (orders st
               ++ [stored (assigned_id (inserted st) (body post)) (body post)])%list).
  { rewrite Hst2. unfold dispatch. rewrite Hpm, Hpp. cbn [route_of].
    pose proof (post_orders_run post st) as Hrun. cbv zeta in Hrun.
    destruct Hrun as (st1 & -> & _ & _ & Hcase). cbn [final snd].
    rewrite Hacc in Hcase. now destruct Hcase. }
  unfold dispatch. rewrite Hgm, Hgp. cbn [route_of].
  destruct (guarded_listing_run get st2 Hcookie Ht Hverify Hmine Hquery HA)
    as (st' & Hrun & Hbody & _).
  exists st'. split; [exact Hrun|].
  rewrite Hbody, Horders, filter_app. cbn [filter].
  assert (Hlisted : email_matches A
            (stored (assigned_id (inserted st) (body post)) (body post)) = true).
  { unfold email_matches.
    rewrite lookup_stored_other by discriminate.
    rewrite Hemail. apply String.eqb_refl. }
  now rewrite Hlisted.
Qed.

(** X10. POST /logout answers every caller, with or without a credential:
    it adds one cookie named [access_token] with an empty value, without the
    http-only, secure and same-site attributes, answers
    [{ success: true }], and touches neither the database nor the token
    library.  A request to GET /orders that presents the value of that
    cookie is refused with 401 before the token library is called. *)
Theorem logout_clears_access_token (req : request) (st : state) :
  req_method req = POST ->
  path req = ["logout"] ->
  exists st' c,
    dispatch SECRET req st = (Ok tt, st')
    /\ res_cookies (res st') = (res_cookies (res st) ++ [c])%list
    /\ cookie_name c = "access_token"
    /\ cookie_value c = ""
    /\ httpOnly (cookie_opts c) = false
    /\ secure (cookie_opts c) = false
    /\ sameSite (cookie_opts c) = None
    /\ res_body (res st') = Some (VObj [("success", VBool true)])
    /\ res_status (res st') = res_status (res st)
    /\ services st' = services st
    /\ orders st' = orders st
    /\ trace st' = trace st
    /\ forall get st2,
         req_method get = GET ->
         path get = ["orders"] ->
         lookup "access_token" (cookies get) = Some (VStr (cookie_value c)) ->
         res_status (res (final (dispatch SECRET get st2))) = 401
         /\ trace (final (dispatch SECRET get st2)) = trace st2.
Proof.
  intros Hm Hp.
  unfold dispatch at 1. rewrite Hm, Hp. cbn [route_of].
  unfold post_logout. unfold_monad.
  eexists. eexists. split; [reflexivity|]. cbn.
  repeat (split; [reflexivity|]).
  intros get st2 Hgm Hgp Hcookie.
  unfold dispatch. rewrite Hgm, Hgp. cbn [route_of].
  unfold verifyJWT. rewrite Hcookie. cbn. split; reflexivity.
Qed.

(** The first catalogue entry with a given identifier. *)
Lemma first_service (hex : string) (ss : list service) :
  (forallb (fun s => negb (String.eqb hex (svc_id s))) ss = true
   /\ split_first (fun d => Ok (field_eq "_id" (VOid hex) d))
        (map service_doc ss) = Ok None)
  \/ exists pre s post,
       ss = (pre ++ s :: post)%list
       /\ forallb (fun x => negb (String.eqb hex (svc_id x))) pre = true
       /\ svc_id s = hex
       /\ split_first (fun d => Ok (field_eq "_id" (VOid hex) d))
            (map service_doc ss)
          = Ok (Some (map service_doc pre, service_doc s, map service_doc post)).
Proof.
  induction ss as [|x xs IH].
  - left. split; reflexivity.
  - assert (Hsel : field_eq "_id" (VOid hex) (service_doc x)
                   = String.eqb hex (svc_id x)).
    { unfold field_eq, eq_match. cbn. apply orb_false_r. }
    cbn [map split_first]. rewrite Hsel.
    destruct (String.eqb hex (svc_id x)) eqn:E.
    + right. exists [], x, xs. apply String.eqb_eq in E.
      repeat split; auto.
    + destruct IH as [[Hnone Hsplit] | (pre & s & post & Hxs & Hpre & Hs & Hsplit)].
      * left. cbn. rewrite E, Hnone, Hsplit. split; reflexivity.
      * right. exists (x :: pre), s, post. rewrite Hsplit. cbn. rewrite E.
        subst xs. repeat split; auto.
Qed.

(** X11. GET /services/:id with a well-formed identifier answers with the
    first catalogue entry that has this identifier, reduced to its [_id],
    [title] and [price]: no other field of the entry is in the answer.  When
    no entry has the identifier the answer is [null], with the status left
    at 200.  Catalogue and orders are unchanged. *)
Theorem service_by_id_is_projected
  (req : request) (st : state) (id hex : string) :
  req_method req = GET ->
  path req = ["services"; id] ->
  ObjectId_parse id = Some hex ->
  exists st',
    dispatch SECRET req st = (Ok tt, st')
    /\ services st' = services st
    /\ orders st' = orders st
    /\ res_status (res st') = res_status (res st)
    /\ ((forallb (fun s => negb (String.eqb hex (svc_id s))) (services st)
         = true
         /\ res_body (res st') = Some VNull)
        \/ exists pre s post p,
             services st = (pre ++ s :: post)%list
             /\ forallb (fun x => negb (String.eqb hex (svc_id x))) pre = true
             /\ svc_id s = hex
             /\ res_body (res st') = Some (VObj p)
             /\ lookup "_id" p = Some (VOid hex)
             /\ lookup "title" p = Some (VStr (svc_title s))
             /\ lookup "price" p = Some (VStr (svc_price s))
             /\ forall k, k <> "_id" -> k <> "title" -> k <> "price" ->
                  lookup k p = None).
Proof.
  intros Hm Hp Hid.
  unfold dispatch. rewrite Hm, Hp. cbn [route_of].
  unfold get_service_by_id, new_ObjectId, findOne.
  cbn [with_id params_id]. rewrite Hid.
  unfold_monad. cbn [compile_filter compile_clause documents services].
  destruct (first_service hex (services st))
    as [[Hnone Hsplit] | (pre & s & post & Hss & Hpre & Hs & Hsplit)];
    rewrite Hsplit.
  - eexists. split; [reflexivity|]. cbn. repeat (split; [reflexivity|]).
    left. split; [assumption | reflexivity].
  - eexists. split; [reflexivity|]. cbn. repeat (split; [reflexivity|]).
    right. exists pre, s, post. eexists.
    split; [assumption|]. split; [assumption|]. split; [assumption|].
    split; [reflexivity|].
    split; [now rewrite <- Hs|]. split; [reflexivity|]. split; [reflexivity|].
    intros k Hk1 Hk2 Hk3.
    change (lookup k (project ["title"; "price"] (service_doc s)) = None).
    rewrite lookup_project. cbn [existsb].
    apply String.eqb_neq in Hk1. apply String.eqb_neq in Hk2.
    apply String.eqb_neq in Hk3. now rewrite Hk1, Hk2, Hk3.
Qed.

End Reads.

(** ** Answers and refusals *)

Section Answers.

Context {RT : Runtime}.
Variable SECRET : string.

(** The catalogue search always answers: its [catch] turns any failure of
    the database call into a 500. *)
Lemma get_services_answers (req : request) (st : state) :
  exists st' b,
    get_services req st = (Ok tt, st') /\ res_body (res st') = Some b.
Proof.
  unfold get_services, find. unfold_monad.
  destruct (compile_filter _) as [p|e]; cbn.
  - destruct (select p _) as [ds|e]; cbn; eexists; eexists; split; reflexivity.
  - eexists. eexists. split; reflexivity.
Qed.

Lemma post_jwt_answers (req : request) (st : state) :
  exists st' b,
    post_jwt SECRET req st = (Ok tt, st') /\ res_body (res st') = Some b.
Proof.
  unfold post_jwt, sign. unfold_monad.
  destruct (truthy (lookup "email" (body req))); cbn.
  - destruct (jwt_sign _ _ _ _); cbn; eexists; eexists; split; reflexivity.
  - eexists. eexists. split; reflexivity.
Qed.

(** X12. POST /jwt, POST /logout, GET /services, POST /orders and GET / are
    always answered: the handler returns and a body has been sent, whatever
    the request holds and whatever the token library and the database do. *)
Theorem guarded_handlers_always_answer (req : request) (st : state) :
  never_throws (route_of (req_method req) (path req)) = true ->
  exists st' b,
    dispatch SECRET req st = (Ok tt, st') /\ res_body (res st') = Some b.
Proof.
  intros Hroute. unfold dispatch.
  destruct (route_of (req_method req) (path req)); try discriminate.
  - apply post_jwt_answers.
  - unfold post_logout. unfold_monad. eexists. eexists. split; reflexivity.
  - apply get_services_answers.
  - pose proof (post_orders_run req st) as Hrun. cbv zeta in Hrun.
    destruct Hrun as (st' & Hrun & _ & _ & Hcase).
    destruct (acceptable _ (orders st));
      destruct Hcase as (_ & Hbody & _); eauto.
  - unfold get_root. unfold_monad. eexists. eexists. split; reflexivity.
Qed.

(** X13. GET /services with a search parameter that is not a string (an
    array or an object from the query string), or with a string that the
    engine refuses as a pattern, is answered 500 with the error body of the
    handler's [catch]; the catalogue is not changed. *)
Theorem search_with_bad_term_answers_500
  (req : request) (st : state) (v : value) :
  req_method req = GET ->
  path req = ["services"] ->
  lookup "search" (query req) = Some v ->
  truthy (Some v) = true ->
  (forall s, v <> VStr s)
  \/ (exists s, v = VStr s /\ regex_compile s "i" = None) ->
  exists st',
    dispatch SECRET req st = (Ok tt, st')
    /\ res_status (res st') = 500
    /\ res_body (res st') = Some (error_message "Failed to fetch services")
    /\ services st' = services st
    /\ orders st' = orders st.
Proof.
  intros Hm Hp Hq Htruthy Hbad.
  unfold dispatch. rewrite Hm, Hp. cbn [route_of].
  unfold get_services, find. rewrite Hq.
  unfold js_or. rewrite Htruthy. unfold_monad.
  cbn [search_filter compile_filter compile_clauses compile_clause].
  assert (Hregex : exists e, compile_regex v "i" = Throw e).
  { destruct Hbad as [Hnot | (s & -> & Hrefused)].
    - destruct v; cbn; eauto. now destruct (Hnot s).
    - cbn. rewrite Hrefused. eauto. }
  destruct Hregex as (e & ->).
  eexists. split; [reflexivity|]. cbn. repeat split; reflexivity.
Qed.

(** X14. A credential whose email is not a string (POST /jwt signs any
    truthy email) never obtains a listing: for every value that the query
    string can give to [email], GET /orders answers 401 and makes no database
    call. *)
Theorem listing_needs_string_email
  (req : request) (st : state) (t : string) (dec : value)
  (mine : option value) :
  req_method req = GET ->
  path req = ["orders"] ->
  lookup "access_token" (cookies req) = Some (VStr t) ->
  jwt_verify t SECRET (clock st) = Some dec ->
  get_prop dec "email" = Ok mine ->
  (forall s, mine <> Some (VStr s)) ->
  (forall q, lookup "email" (query req) = Some q -> query_value q = true) ->
  exists st',
    dispatch SECRET req st = (Ok tt, st')
    /\ res_status (res st') = 401
    /\ orders st' = orders st
    /\ exists evs, trace st' = (trace st ++ evs)%list
                   /\ forallb (fun ev => negb (is_db_event ev)) evs = true.
Proof.
  intros Hm Hp Hcookie Hverify Hmine Hnot Hq.
  unfold dispatch. rewrite Hm, Hp. cbn [route_of].
  unfold verifyJWT, verify. rewrite Hcookie.
  destruct (truthy (Some (VStr t))) eqn:Ht; cbn [negb bson].
  2:{ unfold_monad. eexists. split; [reflexivity|]. cbn.
      repeat split; try reflexivity. exists []. now rewrite app_nil_r. }
  unfold_monad. cbn. rewrite Hverify.
  unfold get_orders, decoded_email. cbn [with_decoded query decoded].
  destruct (truthy (lookup "email" (query req))) eqn:Hemail; cbn [negb].
  2:{ unfold_monad. eexists. split; [reflexivity|]. cbn.
      repeat split; try reflexivity. eauto. }
  unfold_monad. rewrite Hmine.
  assert (Hdiff : strict_eq mine (lookup "email" (query req)) = false).
  { destruct (lookup "email" (query req)) as [q|] eqn:Eq; [|discriminate].
    specialize (Hq q eq_refl).
    destruct q; try discriminate;
      destruct mine as [[]|]; try reflexivity.
    now destruct (Hnot s0). }
  rewrite Hdiff. cbn [negb].
  eexists. split; [reflexivity|]. cbn.
  repeat split; try reflexivity. eauto.
Qed.

End Answers.

(** ** The earlier server and the present one *)

Section Versions.

Context {RT : Runtime}.
Variable SECRET : string.

(** X15. The earlier server lists orders to any caller: GET /orders with
    [email=A] is answered, whatever cookies the request carries, with the
    orders that the filter [{ email: A }] selects. *)
Theorem part_000_lists_orders_to_anyone
  (req : request) (st : state) (A : string) :
  req_method req = GET ->
  path req = ["orders"] ->
  lookup "email" (query req) = Some (VStr A) ->
  exists st',
    Part000.dispatch req st = (Ok tt, st')
    /\ res_body (res st')
       = Some (VArr (map VObj (filter (email_matches A) (orders st))))
    /\ res_status (res st') = res_status (res st)
    /\ orders st' = orders st.
Proof.
  intros Hm Hp Hquery.
  unfold Part000.dispatch. rewrite Hm, Hp. cbn [Part000.route_of].
  unfold Part000.get_orders, find. rewrite Hquery.
  unfold_monad. cbn [bson compile_filter compile_clause documents orders].
  rewrite select_total.
  rewrite (filter_ext _ _ (field_eq_email A)).
  eexists. split; [reflexivity|]. cbn. repeat split; reflexivity.
Qed.

(** X16. On GET /orders the present server either refuses with 401, or
    throws, or answers with the status untouched and the body that the
    earlier server gives to the same request on the same state: the guard
    restricts who is answered, never what the answer is. *)
Theorem guarded_listing_refines_part_000 (req : request) (st : state) :
  req_method req = GET ->
  path req = ["orders"] ->
  let now := dispatch SECRET req st in
  let before := Part000.dispatch req st in
  (fst now = Ok tt /\ res_status (res (final now)) = 401)
  \/ (exists e, fst now = Throw e)
  \/ (fst now = Ok tt
      /\ res_status (res (final now)) = res_status (res st)
      /\ res_body (res (final now)) = res_body (res (final before))
      /\ orders (final now) = orders (final before)).
Proof.
  intros Hm Hp now before. subst now before.
  unfold dispatch, Part000.dispatch. rewrite Hm, Hp.
  cbn [route_of Part000.route_of].
  unfold verifyJWT, verify.
  destruct (truthy (lookup "access_token" (cookies req))); cbn [negb].
  2:{ left. unfold_monad. cbn. split; reflexivity. }
  unfold_monad. cbn.
  destruct (match bson (lookup "access_token" (cookies req)) with
            | VStr t => jwt_verify t SECRET (clock st)
            | _ => None
            end) as [dec|].
  2:{ left. cbn. split; reflexivity. }
  unfold get_orders, Part000.get_orders, decoded_email, find.
  cbn [with_decoded query decoded].
  destruct (truthy (lookup "email" (query req))); cbn [negb].
  2:{ left. unfold_monad. cbn. split; reflexivity. }
  unfold_monad.
  destruct (get_prop dec "email") as [mine|e]; cbn.
  2:{ right. left. eauto. }
  destruct (strict_eq mine (lookup "email" (query req))); cbn [negb].
  2:{ left. cbn. split; reflexivity. }
  right. right.
  cbn [compile_filter compile_clause documents orders].
  rewrite !select_total. cbn. repeat split; reflexivity.
Qed.

(** X17. The earlier server ignores the search parameter and always lists
    the whole catalogue; the present server, when the search parameter is
    absent or empty (and the empty pattern is one the engine accepts and finds
    in every string), gives the same answer. *)
Theorem empty_search_agrees_with_part_000 (req : request) (st : state) :
  req_method req = GET ->
  path req = ["services"] ->
  res_body (res (final (Part000.dispatch req st)))
  = Some (VArr (map VObj (map service_doc (services st))))
  /\ (lookup "search" (query req) = None
      \/ lookup "search" (query req) = Some (VStr "") ->
      forall m,
        regex_compile "" "i" = Some m ->
        (forall s, m s = true) ->
        res_body (res (final (dispatch SECRET req st)))
        = res_body (res (final (Part000.dispatch req st)))).
Proof.
  intros Hm Hp.
  assert (Hbefore : res_body (res (final (Part000.dispatch req st)))
                    = Some (VArr (map VObj (map service_doc (services st))))).
  { unfold Part000.dispatch. rewrite Hm, Hp. cbn [Part000.route_of].
    unfold Part000.get_services, find. unfold_monad.
    cbn [compile_filter documents services].
    rewrite (select_total (fun _ => true)).
    assert (Hall_kept : forall ds : list document,
               filter (fun _ => true) ds = ds)
      by (induction ds as [|d ds IH]; cbn; [|rewrite IH]; reflexivity).
    rewrite Hall_kept. reflexivity. }
  split; [exact Hbefore|].
  intros Hsearch m Hcompile Hall. rewrite Hbefore.
  assert (Hterm : js_or (lookup "search" (query req)) (VStr "") = VStr "")
    by (destruct Hsearch as [-> | ->]; reflexivity).
  destruct (get_services_result SECRET req st Hm Hp Hterm Hcompile)
    as (st' & -> & Hbody & _).
  cbn [final snd]. rewrite Hbody. do 4 f_equal.
  apply forallb_filter_id. apply forallb_forall. intros s _.
  unfold searched. cbn. now rewrite Hall.
Qed.

End Versions.

(** ** The statuses of the answers *)










Section Statuses.

Context {RT : Runtime}.
Variable SECRET : string.







(** X19. GET /services with a search term that the engine accepts as a
    pattern answers with exactly the catalogue entries in which the pattern
    is found in the title, the service_id, the price, the description or the
    identifier in hexadecimal, in the order of the catalogue. *)
Theorem search_lists_matching_entries
  (req : request) (st : state) (term : string) (m : string -> bool) :
  req_method req = GET ->
  path req = ["services"] ->
  lookup "search" (query req) = Some (VStr term) ->
  regex_compile term "i" = Some m ->
  exists st',
    dispatch SECRET req st = (Ok tt, st')
    /\ res_body (res st')
       = Some (VArr (map VObj (map service_doc
            (filter (fun s => m (svc_title s) || m (svc_service_id s)
                              || m (svc_price s) || m (svc_description s)
                              || m (svc_id s))
               (services st)))))
    /\ res_status (res st') = res_status (res st)
    /\ services st' = services st.
Proof.
  intros Hm Hp Hsearch Hcompile.
  assert (Hterm : js_or (lookup "search" (query req)) (VStr "") = VStr term).
  { rewrite Hsearch. unfold js_or. cbn [truthy].
    destruct (String.eqb term "") eqn:E;
      [apply String.eqb_eq in E; now subst | reflexivity]. }
  destruct (get_services_result SECRET req st Hm Hp Hterm Hcompile)
    as (st' & Hrun & Hbody & Hstatus & Hservices).
  exists st'. repeat split; try assumption.
  rewrite Hbody. do 4 f_equal. apply filter_ext. intros s.
  unfold searched. cbn.
  destruct (m (svc_title s)), (m (svc_service_id s)), (m (svc_price s)),
    (m (svc_description s)), (m (svc_id s)); reflexivity.
Qed.

End Statuses.

(** * The theorems on concrete requests, with the sample runtime *)

Import Sample.

Lemma guard_rejects_without_valid_token_witness :
  (exists st',
     dispatch secret (request_of GET ["orders"]) garage = (Ok tt, st')
     /\ (forall next,
           verifyJWT secret (request_of GET ["orders"]) next garage
           = (Ok tt, st'))
     /\ res_status (res st') = 401
     /\ res_body (res st')
        = Some (error_message "Unauthorized access by token")
     /\ services st' = services garage
     /\ orders st' = orders garage
     /\ exists evs, trace st' = (trace garage ++ evs)%list
                    /\ forallb (fun ev => negb (is_db_event ev)) evs = true)
  /\ (exists st',
        dispatch secret
          (with_cookies [("access_token", VStr forged_token)]
             (request_of GET ["orders"])) garage = (Ok tt, st')
        /\ res_status (res st') = 401)
  /\ (exists st',
        dispatch secret
          (with_cookies [("access_token", VStr ann_token)]
             (request_of GET ["orders"])) (at_time 3601000 garage)
        = (Ok tt, st')
        /\ res_status (res st') = 401).
Proof.
  split; [|split].
  - apply (guard_rejects_without_valid_token (RT := runtime) secret
             (request_of GET ["orders"]) garage eq_refl eq_refl).
    left. reflexivity.
  - destruct (guard_rejects_without_valid_token (RT := runtime) secret
                (with_cookies [("access_token", VStr forged_token)]
                   (request_of GET ["orders"])) garage eq_refl eq_refl)
      as (st' & Hrun & _ & Hstatus & _).
    + right. exists forged_token. split; reflexivity.
    + exists st'. split; assumption.
  - destruct (guard_rejects_without_valid_token (RT := runtime) secret
                (with_cookies [("access_token", VStr ann_token)]
                   (request_of GET ["orders"])) (at_time 3601000 garage)
                eq_refl eq_refl)
      as (st' & Hrun & _ & Hstatus & _).
    + right. exists ann_token. split; reflexivity.
    + exists st'. split; assumption.
Defined.

Lemma orders_of_another_email_refused_witness :
  exists st',
    dispatch secret
      (with_cookies [("access_token", VStr ann_token)]
         (with_query [("email", VStr "bob@example.com")]
            (request_of GET ["orders"]))) garage = (Ok tt, st')
    /\ res_status (res st') = 401
    /\ (exists msg, res_body (res st') = Some (error_message msg))
    /\ services st' = services garage
    /\ orders st' = orders garage
    /\ exists evs, trace st' = (trace garage ++ evs)%list
                   /\ forallb (fun ev => negb (is_db_event ev)) evs = true.
Proof.
  apply (orders_of_another_email_refused (RT := runtime) secret
           (with_cookies [("access_token", VStr ann_token)]
              (with_query [("email", VStr "bob@example.com")]
                 (request_of GET ["orders"])))
           garage (t := ann_token)
           (dec := VObj [("email", VStr "ann@example.com"); ("exp", VNum 3601)])
           (A := "ann@example.com") (B := "bob@example.com")
           eq_refl eq_refl eq_refl eq_refl eq_refl eq_refl).
  discriminate.
Defined.

Lemma orders_without_email_refused_witness :
  exists st',
    dispatch secret
      (with_cookies [("access_token", VStr ann_token)]
         (request_of GET ["orders"])) garage = (Ok tt, st')
    /\ res_status (res st') = 401
    /\ (exists msg, res_body (res st') = Some (error_message msg))
    /\ services st' = services garage
    /\ orders st' = orders garage
    /\ exists evs, trace st' = (trace garage ++ evs)%list
                   /\ forallb (fun ev => negb (is_db_event ev)) evs = true.
Proof.
  apply (orders_without_email_refused (RT := runtime) secret
           (with_cookies [("access_token", VStr ann_token)]
              (request_of GET ["orders"]))
           garage (t := ann_token)
           (dec := VObj [("email", VStr "ann@example.com"); ("exp", VNum 3601)])
           eq_refl eq_refl eq_refl eq_refl).
  left. reflexivity.
Defined.

Lemma orders_of_own_email_listed_witness :
  exists st',
    dispatch secret
      (with_cookies [("access_token", VStr ann_token)]
         (with_query [("email", VStr "ann@example.com")]
            (request_of GET ["orders"]))) garage = (Ok tt, st')
    /\ res_body (res st')
       = Some (VArr [VObj [("_id", VOid "000000000000000000000001");
                           ("email", VStr "ann@example.com");
                           ("status", VStr "pending");
                           ("service", VStr "Brake Repair")]]).
Proof.
  destruct (orders_of_own_email_listed (RT := runtime) secret
              (with_cookies [("access_token", VStr ann_token)]
                 (with_query [("email", VStr "ann@example.com")]
                    (request_of GET ["orders"])))
              garage (t := ann_token)
              (dec := VObj [("email", VStr "ann@example.com"); ("exp", VNum 3601)])
              (A := "ann@example.com")
              eq_refl eq_refl eq_refl)
    as (st' & Hrun & Hbody & _); try reflexivity; try discriminate.
  exists st'. split; [exact Hrun | exact Hbody].
Defined.

(** C2, as stated, fails. An order is posted whose email field is the array
    [["ann@example.com"]]; ann, with her credential, then lists her orders:
    the answer holds that order, whose email field does not equal
    ["ann@example.com"], so the answer is not the array of the orders whose
    email field equals the credential's. *)
Lemma orders_list_holds_array_email :
  let A := "ann@example.com" in
  let posted :=
    final (dispatch secret
             (with_body [("email", VArr [VStr A]); ("service", VStr "Brake Repair")]
                (request_of POST ["orders"])) empty_state) in
  let st := next_request posted in
  let req :=
    with_cookies [("access_token", VStr ann_token)]
      (with_query [("email", VStr A)] (request_of GET ["orders"])) in
  jwt_verify ann_token secret (clock st)
  = Some (VObj [("email", VStr A); ("exp", VNum 3601)])
  /\ orders_with_email A (orders st) = []
  /\ res_body (res (final (dispatch secret req st)))
     = Some (VArr [VObj [("_id", VOid "000000000000000000000000");
                         ("email", VArr [VStr A]);
                         ("service", VStr "Brake Repair")]])
  /\ res_body (res (final (dispatch secret req st)))
     <> Some (VArr (map VObj (orders_with_email A (orders st)))).
Proof.
  cbv zeta. repeat split; try (vm_compute; reflexivity).
  vm_compute. discriminate.
Qed.

Lemma jwt_without_email_refused_witness :
  (exists st',
     dispatch secret (request_of POST ["jwt"]) garage = (Ok tt, st')
     /\ res_status (res st') = 400
     /\ res_body (res st') = Some (error_message "Invalid request")
     /\ res_cookies (res st') = res_cookies (res garage)
     /\ trace st' = trace garage
     /\ services st' = services garage
     /\ orders st' = orders garage)
  /\ (exists st',
        dispatch secret
          (with_body [("email", VStr "")] (request_of POST ["jwt"])) garage
        = (Ok tt, st')
        /\ res_status (res st') = 400).
Proof.
  split.
  - apply (jwt_without_email_refused (RT := runtime) secret
             (request_of POST ["jwt"]) garage eq_refl eq_refl).
    left. reflexivity.
  - destruct (jwt_without_email_refused (RT := runtime) secret
                (with_body [("email", VStr "")] (request_of POST ["jwt"]))
                garage eq_refl eq_refl)
      as (st' & Hrun & Hstatus & _).
    + right. reflexivity.
    + exists st'. split; assumption.
Defined.

Lemma jwt_sets_access_token_cookie_witness :
  exists st',
    dispatch secret
      (with_body [("email", VStr "ann@example.com")] (request_of POST ["jwt"]))
      garage = (Ok tt, st')
    /\ res_cookies (res st')
       = [{| cookie_name := "access_token";
             cookie_value := ann_token;
             cookie_opts :=
               {| httpOnly := true; secure := true; sameSite := Some "none";
                  maxAge := Some (3600 * 1000)%Z;
                  expires := None; cookie_path := None |} |}]
    /\ res_body (res st') = Some (VObj [("success", VBool true)])
    /\ res_status (res st') = 200
    /\ trace st' = [JwtSign (VObj [("email", VStr "ann@example.com")])].
Proof.
  apply (jwt_sets_access_token_cookie (RT := runtime) secret
           (with_body [("email", VStr "ann@example.com")]
              (request_of POST ["jwt"]))
           garage (email := VStr "ann@example.com")
           (token := ann_token)
           eq_refl eq_refl eq_refl eq_refl eq_refl).
Defined.

Lemma malformed_id_throws_witness :
  dispatch secret (request_of GET ["services"; "xyz"]) garage
  = (Throw (BSONError "input must be a 24 character hex string"), garage)
  /\ dispatch secret (request_of PATCH ["orders"; "xyz"]) garage
     = (Throw (BSONError "input must be a 24 character hex string"), garage)
  /\ dispatch secret (request_of DELETE ["orders"; "xyz"]) garage
     = (Throw (BSONError "input must be a 24 character hex string"), garage)
  /\ res_body (res garage) = None.
Proof.
  split; [|split; [|split; [|reflexivity]]].
  - apply (malformed_id_throws (RT := runtime) secret
             (request_of GET ["services"; "xyz"]) garage (id := "xyz") eq_refl).
    left. split; reflexivity.
  - apply (malformed_id_throws (RT := runtime) secret
             (request_of PATCH ["orders"; "xyz"]) garage (id := "xyz") eq_refl).
    right. left. split; reflexivity.
  - apply (malformed_id_throws (RT := runtime) secret
             (request_of DELETE ["orders"; "xyz"]) garage (id := "xyz") eq_refl).
    right. right. split; reflexivity.
Defined.

Lemma patch_order_sets_status_only_witness :
  exists st',
    dispatch secret
      (with_body [("status", VStr "done")]
         (request_of PATCH ["orders"; "000000000000000000000001"])) garage
    = (Ok tt, st')
    /\ orders st'
       = [ [("_id", VOid "000000000000000000000001");
            ("email", VStr "ann@example.com"); ("status", VStr "done");
            ("service", VStr "Brake Repair")];
           [("_id", VOid "000000000000000000000002");
            ("email", VStr "bob@example.com");
            ("service", VStr "Engine Oil Change")] ].
Proof.
  destruct (patch_order_sets_status_only (RT := runtime) secret
              (with_body [("status", VStr "done")]
                 (request_of PATCH ["orders"; "000000000000000000000001"]))
              garage (id := "000000000000000000000001")
              (hex := "000000000000000000000001")
              eq_refl eq_refl eq_refl)
    as (st' & Hrun & _).
  exists st'. split; [exact Hrun|].
  vm_compute in Hrun. inversion Hrun. reflexivity.
Defined.

Lemma services_search_witness :
  (exists st',
     dispatch secret (request_of GET ["services"]) garage = (Ok tt, st')
     /\ res_body (res st')
        = Some (VArr (map VObj (map service_doc (services garage))))
     /\ res_status (res st') = res_status (res garage))
  /\ (exists st',
        dispatch secret
          (with_query [("search", VStr "gearbox")] (request_of GET ["services"]))
          garage = (Ok tt, st')
        /\ res_body (res st') = Some (VArr [])
        /\ res_status (res st') = res_status (res garage)).
Proof.
  split.
  - apply (proj1 (services_search (RT := runtime) secret
                    (request_of GET ["services"]) garage eq_refl eq_refl)
             (fun s => contains (lowercase "") (lowercase s))).
    + left. reflexivity.
    + reflexivity.
    + intros s. cbn. destruct (lowercase s); reflexivity.
  - apply (proj2 (services_search (RT := runtime) secret
                    (with_query [("search", VStr "gearbox")]
                       (request_of GET ["services"])) garage eq_refl eq_refl)
             "gearbox"
             (fun s => contains (lowercase "gearbox") (lowercase s))).
    + reflexivity.
    + reflexivity.
    + intros s [<- | [<- | []]] str Hin; cbn in Hin;
        repeat (destruct Hin as [<- | Hin]; [vm_compute; reflexivity|]);
        destruct Hin.
Defined.

(** * The further properties on concrete requests *)



Lemma orders_stay_well_kept_witness :
  well_kept (orders (final (dispatch secret
                              (with_body [("email", VStr "ann@example.com")]
                                 (request_of POST ["orders"])) workshop)))
  = true.
Proof.
  apply (orders_stay_well_kept (RT := runtime) secret).
  reflexivity.
Defined.

Lemma post_orders_stores_document_witness :
  (exists st',
     dispatch secret
       (with_body [("email", VStr "ann@example.com"); ("service", VStr "Tyres")]
          (request_of POST ["orders"])) workshop = (Ok tt, st')
     /\ orders st'
        = (orders workshop
           ++ [[("_id", VOid "000000000000000000000007");
                ("email", VStr "ann@example.com"); ("service", VStr "Tyres")]])%list)
  /\ (exists st',
        dispatch secret
          (with_body [("_id", VArr []); ("email", VStr "ann@example.com")]
             (request_of POST ["orders"])) workshop = (Ok tt, st')
        /\ orders st' = orders workshop
        /\ res_status (res st') = 500).
Proof.
  split.
  - destruct (post_orders_stores_document (RT := runtime) secret
                (with_body [("email", VStr "ann@example.com");
                            ("service", VStr "Tyres")]
                   (request_of POST ["orders"])) workshop eq_refl eq_refl)
      as (st' & Hrun & Hcase).
    exists st'. split; [exact Hrun|]. exact (proj1 Hcase).
  - destruct (post_orders_stores_document (RT := runtime) secret
                (with_body [("_id", VArr []); ("email", VStr "ann@example.com")]
                   (request_of POST ["orders"])) workshop eq_refl eq_refl)
      as (st' & Hrun & Hcase).
    exists st'. split; [exact Hrun|].
    split; [exact (proj1 Hcase) | exact (proj2 (proj2 Hcase))].
Defined.

Lemma delete_order_removes_first_match_witness :
  exists st',
    dispatch secret (request_of DELETE ["orders"; "000000000000000000000001"])
      garage = (Ok tt, st')
    /\ services st' = services garage.
Proof.
  destruct (delete_order_removes_first_match (RT := runtime) secret
              (request_of DELETE ["orders"; "000000000000000000000001"])
              garage (id := "000000000000000000000001")
              (hex := "000000000000000000000001") eq_refl eq_refl eq_refl)
    as (st' & Hrun & Hservices & _).
  exists st'. split; assumption.
Defined.

Lemma deleted_order_is_gone_witness :
  let req := request_of DELETE ["orders"; "000000000000000000000001"] in
  let st1 := final (dispatch secret req garage) in
  let st2 := final (dispatch secret req (next_turn st1)) in
  existsb (field_eq "_id" (VOid "000000000000000000000001")) (orders st1)
  = false
  /\ orders st2 = orders st1
  /\ res_body (res st2)
     = Some (VObj [("acknowledged", VBool true); ("deletedCount", VNum 0)]).
Proof.
  apply (deleted_order_is_gone (RT := runtime) secret
           (request_of DELETE ["orders"; "000000000000000000000001"]) garage
           (id := "000000000000000000000001")
           (hex := "000000000000000000000001")
           eq_refl eq_refl eq_refl eq_refl).
Defined.

Lemma patch_order_idempotent_witness :
  let req := with_body [("status", VStr "done")]
               (request_of PATCH ["orders"; "000000000000000000000002"]) in
  let st1 := final (dispatch secret req garage) in
  orders (final (dispatch secret req (next_turn st1))) = orders st1.
Proof.
  apply (patch_order_idempotent (RT := runtime) secret
           (with_body [("status", VStr "done")]
              (request_of PATCH ["orders"; "000000000000000000000002"]))
           garage (id := "000000000000000000000002") eq_refl eq_refl).
Defined.

Lemma patch_order_keeps_listings_witness :
  listed_ids "bob@example.com"
    (orders (final (dispatch secret
                      (with_body [("status", VStr "done")]
                         (request_of PATCH
                            ["orders"; "000000000000000000000002"])) garage)))
  = listed_ids "bob@example.com" (orders garage).
Proof.
  apply (patch_order_keeps_listings (RT := runtime) secret
           (with_body [("status", VStr "done")]
              (request_of PATCH ["orders"; "000000000000000000000002"]))
           garage (id := "000000000000000000000002") "bob@example.com"
           eq_refl eq_refl).
Defined.

Lemma posted_order_is_listed_witness :
  let post := with_body [("email", VStr "ann@example.com");
                         ("service", VStr "Tyres")]
                (request_of POST ["orders"]) in
  let get := with_cookies [("access_token", VStr ann_token)]
               (with_query [("email", VStr "ann@example.com")]
                  (request_of GET ["orders"])) in
  exists st',
    dispatch secret get (next_turn (final (dispatch secret post workshop)))
    = (Ok tt, st')
    /\ res_body (res st')
       = Some (VArr [VObj [("_id", VOid "000000000000000000000001");
                           ("email", VStr "ann@example.com");
                           ("status", VStr "pending");
                           ("service", VStr "Brake Repair")];
                     VObj [("_id", VOid "000000000000000000000007");
                           ("email", VStr "ann@example.com");
                           ("service", VStr "Tyres")]]).
Proof.
  apply (posted_order_is_listed (RT := runtime) secret
           (with_body [("email", VStr "ann@example.com");
                       ("service", VStr "Tyres")]
              (request_of POST ["orders"]))
           (with_cookies [("access_token", VStr ann_token)]
              (with_query [("email", VStr "ann@example.com")]
                 (request_of GET ["orders"])))
           workshop
           (next_turn (final (dispatch secret
              (with_body [("email", VStr "ann@example.com");
                          ("service", VStr "Tyres")]
                 (request_of POST ["orders"])) workshop)))
           (t := ann_token)
           (dec := VObj [("email", VStr "ann@example.com"); ("exp", VNum 3601)])
           (A := "ann@example.com"));
    try reflexivity; discriminate.
Defined.

Lemma logout_clears_access_token_witness :
  exists st' c,
    dispatch secret
      (with_cookies [("access_token", VStr ann_token)]
         (request_of POST ["logout"])) garage = (Ok tt, st')
    /\ res_cookies (res st') = [c]
    /\ cookie_name c = "access_token"
    /\ cookie_value c = "".
Proof.
  destruct (logout_clears_access_token (RT := runtime) secret
              (with_cookies [("access_token", VStr ann_token)]
                 (request_of POST ["logout"])) garage eq_refl eq_refl)
    as (st' & c & Hrun & Hcookies & Hname & Hvalue & _).
  exists st', c. repeat split; assumption.
Defined.

Lemma service_by_id_is_projected_witness :
  exists st',
    dispatch secret (request_of GET ["services"; "635B4D1F2A3C4E5F6A7B8C9E"])
      garage = (Ok tt, st')
    /\ services st' = services garage
    /\ orders st' = orders garage
    /\ res_status (res st') = 200.
Proof.
  destruct (service_by_id_is_projected (RT := runtime) secret
              (request_of GET ["services"; "635B4D1F2A3C4E5F6A7B8C9E"]) garage
              (id := "635B4D1F2A3C4E5F6A7B8C9E")
              (hex := "635b4d1f2a3c4e5f6a7b8c9e") eq_refl eq_refl eq_refl)
    as (st' & Hrun & Hservices & Horders & Hstatus & _).
  exists st'. repeat split; assumption.
Defined.

Lemma guarded_handlers_always_answer_witness :
  exists st' b,
    dispatch secret
      (with_body [("email", VNum 5)] (request_of POST ["jwt"])) garage
    = (Ok tt, st')
    /\ res_body (res st') = Some b.
Proof.
  apply (guarded_handlers_always_answer (RT := runtime) secret).
  reflexivity.
Defined.

Lemma search_with_bad_term_answers_500_witness :
  (exists st',
     dispatch secret
       (with_query [("search", VArr [VStr "oil"; VStr "brake"])]
          (request_of GET ["services"])) garage = (Ok tt, st')
     /\ res_status (res st') = 500)
  /\ (exists st',
        dispatch secret
          (with_query [("search", VStr "(oil")] (request_of GET ["services"]))
          garage = (Ok tt, st')
        /\ res_status (res st') = 500).
Proof.
  split.
  - destruct (search_with_bad_term_answers_500 (RT := runtime) secret
                (with_query [("search", VArr [VStr "oil"; VStr "brake"])]
                   (request_of GET ["services"])) garage
                (v := VArr [VStr "oil"; VStr "brake"])
                eq_refl eq_refl eq_refl eq_refl)
      as (st' & Hrun & Hstatus & _).
    + left. discriminate.
    + exists st'. split; assumption.
  - destruct (search_with_bad_term_answers_500 (RT := runtime) secret
                (with_query [("search", VStr "(oil")]
                   (request_of GET ["services"])) garage
                (v := VStr "(oil") eq_refl eq_refl eq_refl eq_refl)
      as (st' & Hrun & Hstatus & _).
    + right. exists "(oil". split; reflexivity.
    + exists st'. split; assumption.
Defined.

Lemma listing_needs_string_email_witness :
  exists st',
    dispatch (RT := numbered) secret
      (with_cookies [("access_token", VStr "n5")]
         (with_query [("email", VStr "5")] (request_of GET ["orders"])))
      garage = (Ok tt, st')
    /\ res_status (res st') = 401
    /\ orders st' = orders garage.
Proof.
  destruct (listing_needs_string_email (RT := numbered) secret
              (with_cookies [("access_token", VStr "n5")]
                 (with_query [("email", VStr "5")] (request_of GET ["orders"])))
              garage (t := "n5") (dec := VObj [("email", VNum 5)])
              (mine := Some (VNum 5))
              eq_refl eq_refl eq_refl eq_refl eq_refl)
    as (st' & Hrun & Hstatus & Horders & _).
  - discriminate.
  - intros q Hq. cbn in Hq. inversion Hq. reflexivity.
  - exists st'. repeat split; assumption.
Defined.

Lemma part_000_lists_orders_to_anyone_witness :
  exists st',
    Part000.dispatch (RT := runtime)
      (with_query [("email", VStr "bob@example.com")]
         (request_of GET ["orders"])) garage = (Ok tt, st')
    /\ res_body (res st')
       = Some (VArr [VObj [("_id", VOid "000000000000000000000002");
                           ("email", VStr "bob@example.com");
                           ("service", VStr "Engine Oil Change")]]).
Proof.
  destruct (part_000_lists_orders_to_anyone (RT := runtime)
              (with_query [("email", VStr "bob@example.com")]
                 (request_of GET ["orders"])) garage
              (A := "bob@example.com") eq_refl eq_refl eq_refl)
    as (st' & Hrun & Hbody & _).
  exists st'. split; [exact Hrun | exact Hbody].
Defined.

Lemma guarded_listing_refines_part_000_witness :
  let req := with_cookies [("access_token", VStr ann_token)]
               (with_query [("email", VStr "ann@example.com")]
                  (request_of GET ["orders"])) in
  let now := dispatch secret req garage in
  let before := Part000.dispatch req garage in
  (fst now = Ok tt /\ res_status (res (final now)) = 401)
  \/ (exists e, fst now = Throw e)
  \/ (fst now = Ok tt
      /\ res_status (res (final now)) = res_status (res garage)
      /\ res_body (res (final now)) = res_body (res (final before))
      /\ orders (final now) = orders (final before)).
Proof.
  apply (guarded_listing_refines_part_000 (RT := runtime) secret
           (with_cookies [("access_token", VStr ann_token)]
              (with_query [("email", VStr "ann@example.com")]
                 (request_of GET ["orders"]))) garage eq_refl eq_refl).
Defined.

Lemma empty_search_agrees_with_part_000_witness :
  res_body (res (final (Part000.dispatch
                          (with_query [("search", VStr "oil")]
                             (request_of GET ["services"])) garage)))
  = Some (VArr (map VObj (map service_doc (services garage))))
  /\ res_body (res (final (dispatch secret (request_of GET ["services"]) garage)))
     = res_body (res (final (Part000.dispatch (request_of GET ["services"])
                               garage))).
Proof.
  split.
  - apply (empty_search_agrees_with_part_000 (RT := runtime) secret
             (with_query [("search", VStr "oil")] (request_of GET ["services"]))
             garage eq_refl eq_refl).
  - apply (proj2 (empty_search_agrees_with_part_000 (RT := runtime) secret
                    (request_of GET ["services"]) garage eq_refl eq_refl)
             (or_introl eq_refl)
             (fun s => contains (lowercase "") (lowercase s)) eq_refl).
    intros s. cbn. destruct (lowercase s); reflexivity.
Defined.


Lemma search_lists_matching_entries_witness :
  exists st',
    dispatch secret
      (with_query [("search", VStr "OIL")] (request_of GET ["services"]))
      garage = (Ok tt, st')
    /\ res_body (res st') = Some (VArr [VObj (service_doc oil)]).
Proof.
  destruct (search_lists_matching_entries (RT := runtime) secret
              (with_query [("search", VStr "OIL")] (request_of GET ["services"]))
              garage (term := "OIL")
              (m := fun s => contains (lowercase "OIL") (lowercase s))
              eq_refl eq_refl eq_refl eq_refl)
    as (st' & Hrun & Hbody & _).
  exists st'. split; [exact Hrun | exact Hbody].
Defined.

